(** * TaskFlow backend: board, list and card controllers

    A shallow embedding of the three Express controllers
    ([board.controller.ts], [list.controller.ts], [card.controller.ts])
    over an explicit model of the Prisma store, followed by the
    properties of the authorization and ordering logic.

    Conventions of the embedding.
    - Request bodies are JSON values ([JsVal]); property access, truthiness
      and [typeof] follow JavaScript.
    - A string is held as the bytes of its UTF-8 encoding, so a character
      outside ASCII takes two to four bytes.
    - The store is a record of tables keyed by id ([gmap string _]).
      A handler runs in the monad [Prisma]: it reads the current store,
      commits writes to it, or throws.  Every commit is recorded, so the
      sequence of store states another request could observe is part of a
      run's result.
    - The outer [try { ... } catch] of a handler turns a thrown exception
      into the 500 response.
    - A response is its status code, its message and the entity it
      carries; the nested projections of a read ([include], [orderBy]) are
      not modelled. *)

From Stdlib Require Import ZArith Ascii String List.
From stdpp Require Import base option list strings gmap fin_maps.

Local Open Scope string_scope.
Local Open Scope Z_scope.

(** ** JSON values as JavaScript sees them *)

(** [JNum n] is the number with the integral value [n]; [JFrac whole] is a
    number with a fractional part, of which only the integer part [whole]
    (the number truncated toward zero) plays a role below: such a number is
    truthy, has type 'number', and an integer column stores its integer
    part.  [JInf] is a number too large for a double, which [JSON.parse]
    reads as [Infinity] or [-Infinity]: it is truthy, has type 'number',
    and no integer column takes it. *)
#[warnings="-register-all"] Inductive JsVal : Type :=
| JUndefined
| JNull
| JBool (b : bool)
| JNum (n : Z)
| JFrac (whole : Z)
| JStr (s : string)
| JArr (xs : list JsVal)
| JObj (fields : list (string * JsVal))
| JInf.

(** The result of evaluating an expression that may throw. *)
Inductive Result (A : Type) : Type :=
| Value (a : A)
| Thrown.
Arguments Value {A} a.
Arguments Thrown {A}.

(** [!!v] in JavaScript. *)
Definition truthy (v : JsVal) : bool :=
  match v with
  | JUndefined | JNull => false
  | JBool b => b
  | JNum n => negb (n =? 0)
  | JFrac _ | JInf => true
  | JStr s => negb (bool_decide (s = ""))
  | JArr _ | JObj _ => true
  end.

Fixpoint assoc (k : string) (fs : list (string * JsVal)) : JsVal :=
  match fs with
  | [] => JUndefined
  | (k', v) :: fs' => if bool_decide (k' = k) then v else assoc k fs'
  end.

(** [v.k] (equivalently the destructuring [const { k } = v]): a TypeError on
    [undefined] and [null], [undefined] on a value without that property. *)
Definition prop (v : JsVal) (k : string) : Result JsVal :=
  match v with
  | JUndefined | JNull => Thrown
  | JObj fs => Value (assoc k fs)
  | _ => Value JUndefined
  end.

(** [typeof v === 'number'] *)
Definition is_number (v : JsVal) : bool :=
  match v with
  | JNum _ | JFrac _ | JInf => true
  | _ => false
  end.

(** The integer an [Int] column makes of a number: the query engine
    truncates one with a fractional part, and takes no infinite one. *)
Definition int_of (v : JsVal) : option Z :=
  match v with
  | JNum n => Some n
  | JFrac whole => Some whole
  | _ => None
  end.

(** [String.prototype.trim] strips the white space and the line terminators
    of ECMAScript from both ends.  In UTF-8 these are
    - one byte: TAB, LF, VT, FF, CR (9 to 13) and SP (32);
    - two bytes: U+00A0 (194 160);
    - three bytes: U+1680 (225 154 128), U+2000 to U+200A (226 128 128 to
      226 128 138), U+2028 and U+2029 (226 128 168 and 169), U+202F
      (226 128 175), U+205F (226 129 159), U+3000 (227 128 128) and U+FEFF
      (239 187 191). *)
Definition is_ws (a : ascii) : bool :=
  let n := N_of_ascii a in
  ((9 <=? n) && (n <=? 13))%N || (n =? 32)%N.

Definition is_ws2 (a b : ascii) : bool :=
  ((N_of_ascii a =? 194) && (N_of_ascii b =? 160))%N.

Definition is_ws3 (a b c : ascii) : bool :=
  let x := N_of_ascii a in
  let y := N_of_ascii b in
  let z := N_of_ascii c in
  ((x =? 225) && (y =? 154) && (z =? 128)
   || (x =? 226) && (y =? 128)
      && ((128 <=? z) && (z <=? 138) || (z =? 168) || (z =? 169) || (z =? 175))
   || (x =? 226) && (y =? 129) && (z =? 159)
   || (x =? 227) && (y =? 128) && (z =? 128)
   || (x =? 239) && (y =? 187) && (z =? 191))%N.

(** Strip white space from the front, given the two- and three-byte
    characters to strip. *)
Fixpoint strip (w2 : ascii -> ascii -> bool) (w3 : ascii -> ascii -> ascii -> bool)
    (s : list ascii) : list ascii :=
  match s with
  | a :: s1 =>
      if is_ws a then strip w2 w3 s1
      else match s1 with
           | b :: s2 =>
               if w2 a b then strip w2 w3 s2
               else match s2 with
                    | c :: s3 => if w3 a b c then strip w2 w3 s3 else s
                    | [] => s
                    end
           | [] => s
           end
  | [] => []
  end.

Definition trim_start (s : list ascii) : list ascii := strip is_ws2 is_ws3 s.

(** From the back the bytes of a character come in reverse. *)
Definition trim_end (s : list ascii) : list ascii :=
  rev (strip (fun a b => is_ws2 b a) (fun a b c => is_ws3 c b a) (rev s)).

Definition trim (s : string) : string :=
  string_of_list_ascii (trim_end (trim_start (list_ascii_of_string s))).

(** Outcome of a validation step: the handler answers 400, an exception
    escapes to the [catch], or the step yields a value. *)
Inductive Checked (A : Type) : Type :=
| Reject
| Raise
| Accept (a : A).
Arguments Reject {A}.
Arguments Raise {A}.
Arguments Accept {A} a.

(** [if (!title || title.trim() === '') { 400 }], then [title.trim()].
    A truthy value that is not a string has no [trim] method. *)
Definition required_title (title : JsVal) : Checked string :=
  if negb (truthy title) then Reject
  else match title with
       | JStr s => if bool_decide (trim s = "") then Reject else Accept (trim s)
       | _ => Raise
       end.

(** ** The store *)

(** Modelled from the spec: the Prisma schema of the repository
    (prisma/schema.prisma) is not among the sources.  The tables and their
    columns follow the data model of the specification (section 3) and the
    fields the controllers read and write.  The user and comment tables and
    the time stamps, which no handler below writes, are left out. *)
Record Board := mkBoard { b_title : string; b_ownerId : string }.
Record Member := mkMember { m_boardId : string; m_userId : string; m_role : string }.
Record TList := mkList { l_title : string; l_order : Z; l_boardId : string }.
Record Card := mkCard {
  c_title : string;
  c_description : option string;
  c_labels : list string;
  c_dueDate : option JsVal;      (* [new Date(v)], kept as its argument [v] *)
  c_order : Z;
  c_listId : string }.

Record Store := mkStore {
  boards : gmap string Board;
  members : gmap string Member;
  lists : gmap string TList;
  cards : gmap string Card }.

(** The store as other requests see it: the current state and the states
    committed before it, most recent first. *)
Record World := mkWorld { now : Store; past : list Store }.

Definition Prisma (A : Type) : Type := World -> Result A * World.

#[export] Instance Prisma_ret : MRet Prisma := fun A a w => (Value a, w).
#[export] Instance Prisma_bind : MBind Prisma := fun A B f m w =>
  match m w with
  | (Value a, w') => f a w'
  | (Thrown, w') => (Thrown, w')
  end.

Definition throw {A : Type} : Prisma A := fun w => (Thrown, w).
Definition read {A : Type} (f : Store -> A) : Prisma A := fun w => (Value (f (now w)), w).
Definition get : Prisma Store := read (fun s => s).
Definition commit (s : Store) : Prisma unit :=
  fun w => (Value tt, {| now := s; past := now w :: past w |}).

(** A lifted [Result]. *)
Definition eval {A : Type} (r : Result A) : Prisma A :=
  match r with
  | Value a => mret a
  | Thrown => throw
  end.

(** A query is what a Prisma client call builds before it is awaited: run
    against a store it fails ([None], the promise rejects) or yields a value
    and the store after it. *)
Definition Query (A : Type) : Type := Store -> option (A * Store).

(** [await q]: the query runs in a transaction of its own. *)
Definition await {A : Type} (q : Query A) : Prisma A :=
  s ← get;
  match q s with
  | Some (a, s') => _ ← commit s'; mret a
  | None => throw
  end.

(** [await prisma.$transaction([q1, ..., qn])]: the queries run in order on
    a working copy; the copy is committed once when all succeeded, and
    dropped when one failed. *)
Fixpoint run_batch {A : Type} (qs : list (Query A)) (s : Store) : option (list A * Store) :=
  match qs with
  | [] => Some ([], s)
  | q :: qs' =>
      match q s with
      | Some (a, s') =>
          match run_batch qs' s' with
          | Some (r, s'') => Some (a :: r, s'')
          | None => None
          end
      | None => None
      end
  end.

Definition transaction {A : Type} (qs : list (Query A)) : Prisma (list A) :=
  await (run_batch qs).

(** ** Queries of the Prisma client

    Modelled from the spec: what the absent Prisma schema declares and the
    queries below rely on.  Ids are primary keys; a list refers to a board
    and a card to a list (the invariants of section 3); deleting a board or
    a list cascades (section 4.3 and the comments of [deleteBoard] and
    [deleteList]); [labels] is an array of strings; [order] is an integer,
    for which a write takes a number ([int_of]).
    Three things are parameters of the development: which integers the
    [order] columns accept ([order_ok]), which arguments make [new Date(v)]
    a valid date ([date_ok]), and what the Prisma client takes for the
    [labels] of a write ([labels_of]). *)

Definition set_boards (f : gmap string Board -> gmap string Board) (s : Store) : Store :=
  {| boards := f (boards s); members := members s; lists := lists s; cards := cards s |}.
Definition set_lists (f : gmap string TList -> gmap string TList) (s : Store) : Store :=
  {| boards := boards s; members := members s; lists := f (lists s); cards := cards s |}.
Definition set_cards (f : gmap string Card -> gmap string Card) (s : Store) : Store :=
  {| boards := boards s; members := members s; lists := lists s; cards := f (cards s) |}.

(** [include: { members: ... }]: the member rows of a board. *)
Definition members_of (s : Store) (boardId : string) : list Member :=
  filter (fun m => m_boardId m = boardId) (snd <$> map_to_list (members s)).

(** [findFirst({ where, orderBy: { order: 'desc' }, select: { order: true } })]
    on the orders of the rows that match [where]. *)
Definition first_desc (orders : list Z) : option Z :=
  foldr (fun o acc => Some (match acc with Some m => Z.max o m | None => o end)) None orders.

Definition list_orders (s : Store) (boardId : string) : list Z :=
  l_order <$> filter (fun l => l_boardId l = boardId) (snd <$> map_to_list (lists s)).

Definition card_orders (s : Store) (listId : string) : list Z :=
  c_order <$> filter (fun c => c_listId c = listId) (snd <$> map_to_list (cards s)).

(** The data of [prisma.card.create]. *)
Record CardCreate := mkCardCreate {
  n_title : string;
  n_description : option string;
  n_order : Z;
  n_listId : string;
  n_labels : JsVal;
  n_dueDate : option JsVal }.

(** The data of [prisma.card.update]: an absent key is [None]. *)
Record CardData := mkCardData {
  d_title : option string;
  d_description : option (option string);
  d_labels : option JsVal;
  d_dueDate : option (option JsVal);
  d_listId : option JsVal;
  d_order : option JsVal }.

(** A schema instance and a small store used by the examples: 32-bit
    [order] columns, every date valid, [labels] as [demo_labels] takes
    them; board b1 is owned by u1 and shared with u2, board b2 belongs to
    u3 alone. *)
Definition int32_ok (z : Z) : bool := (-2147483648 <=? z) && (z <=? 2147483647).
Definition any_date (v : JsVal) : bool := true.

(** A [String[]] argument. *)
Fixpoint as_strings (xs : list JsVal) : option (list string) :=
  match xs with
  | [] => Some []
  | JStr s :: xs' => cons s <$> as_strings xs'
  | _ :: _ => None
  end.

Definition is_undefined (v : JsVal) : bool :=
  match v with
  | JUndefined => true
  | _ => false
  end.

(** The value of property [k] of an object whose only defined property is
    [k]. *)
Definition only_field (k : string) (fs : list (string * JsVal)) : option JsVal :=
  if forallb (fun p => bool_decide (p.1 = k) || is_undefined (assoc p.1 fs)) fs
  then match assoc k fs with
       | JUndefined => None
       | v => Some v
       end
  else None.

(** The instance of [labels_of] the examples run on.  A [String[]] column
    takes an array of strings, [{ set: [...] }], or, in an update ([current]
    is what the row holds), [{ push: ... }] with a string or an array of
    strings. *)
Definition demo_labels (current : option (list string)) (v : JsVal)
    : option (list string) :=
  match v with
  | JArr xs => as_strings xs
  | JObj fs =>
      match only_field "set" fs, only_field "push" fs, current with
      | Some (JArr xs), _, _ => as_strings xs
      | _, Some (JStr x), Some labels => Some (labels ++ [x])%list
      | _, Some (JArr xs), Some labels => app labels <$> as_strings xs
      | _, _, _ => None
      end
  | _ => None
  end.

Definition demo_store : Store :=
  {| boards := <["b1" := mkBoard "Sprint" "u1"]> (<["b2" := mkBoard "Private" "u3"]> ∅);
     members := <["m1" := mkMember "b1" "u1" "owner"]>
                  (<["m2" := mkMember "b1" "u2" "member"]>
                     (<["m3" := mkMember "b2" "u3" "owner"]> ∅));
     lists := <["l1" := mkList "Todo" 0 "b1"]>
                (<["l2" := mkList "Doing" 1 "b1"]>
                   (<["l3" := mkList "Backlog" 7 "b2"]> ∅));
     cards := <["c1" := mkCard "Fix bug" None [] None 0 "l1"]> ∅ |}.

(** [{ id, order }] of a reorder payload, and a body with a title. *)
Definition entry (id : string) (order : Z) : JsVal :=
  JObj [("id", JStr id); ("order", JNum order)].
Definition titled (title : string) : JsVal := JObj [("title", JStr title)].

(** The no-break space U+00A0 and the em space U+2003, as strings. *)
Definition nbsp : string :=
  String (ascii_of_nat 194) (String (ascii_of_nat 160) EmptyString).
Definition emsp : string :=
  String (ascii_of_nat 226)
    (String (ascii_of_nat 128) (String (ascii_of_nat 131) EmptyString)).

(** ** The libraries the middleware, the routers and the auth controller
       call

    The payload of a token (utils/jwt.ts).  The libraries are interfaces: [jwt_sign] is [jwt.sign] with the secret
    and expiry of utils/jwt.ts and [jwt_verify] is [jwt.verify] with that
    secret ([None] when it throws); [bcrypt_hash salt p] is
    [bcrypt.hash(p, 10)] with the salt it draws and [bcrypt_compare] is
    [bcrypt.compare]; [decodeURIComponent] is the function Express decodes
    a path parameter with ([None] when it throws). *)
Record JwtPayload := mkPayload { p_userId : string; p_email : string }.

(** Modelled from the spec: a row of the user table of the absent Prisma
    schema, with the columns the auth controller reads and writes. *)
Record User := mkUser { u_email : string; u_password : string; u_name : string }.

Class Jwt := {
  jwt_sign : JwtPayload -> string;
  jwt_verify : string -> option JwtPayload }.

Class Bcrypt := {
  bcrypt_hash : string -> string -> string;
  bcrypt_compare : string -> string -> bool }.

Class Runtime := {
  decodeURIComponent : string -> option string }.

(** The instances the examples run on: a token is the user id and the
    email joined by a dot, a hash is the salt and the password joined by a
    dollar sign, and a path segment decodes to itself. *)
Definition demo_jwt : Jwt :=
  {| jwt_sign := fun p => p_userId p ++ "." ++ p_email p;
     jwt_verify := fun token =>
       if bool_decide (token = "u1.ann@example.org")
       then Some (mkPayload "u1" "ann@example.org")
       else None |}.

Definition demo_bcrypt : Bcrypt :=
  {| bcrypt_hash := fun salt password => salt ++ "$" ++ password;
     bcrypt_compare := fun password hash => bool_decide (hash = "na$" ++ password) |}.

Definition demo_runtime : Runtime := {| decodeURIComponent := Some |}.

Definition demo_users : gmap string User :=
  <["u1" := mkUser "ann@example.org" "na$secret" "Ann"]> ∅.

Section Controllers.

Variable order_ok : Z -> bool.
Variable date_ok : JsVal -> bool.

(** [labels_of current v]: what the [labels] column holds after a write
    whose data carries [v] for it, where [current] is what the row held
    ([None] in a create); [None] when the client refuses [v]. *)
Variable labels_of : option (list string) -> JsVal -> option (list string).

Definition due_ok (d : option JsVal) : bool :=
  match d with
  | Some v => date_ok v
  | None => true
  end.

(** [prisma.board.create] with the nested creation of the owner's member
    row; [id] and [memberId] are the keys the store generates. *)
Definition board_create (id memberId : string) (b : Board) (m : Member) : Query Board :=
  fun s =>
    match boards s !! id, members s !! memberId with
    | None, None =>
        Some (b, {| boards := <[id := b]> (boards s);
                    members := <[memberId := m]> (members s);
                    lists := lists s; cards := cards s |})
    | _, _ => None
    end.

Definition board_update (id : string) (title : string) : Query Board :=
  fun s =>
    match boards s !! id with
    | Some b =>
        let b' := {| b_title := title; b_ownerId := b_ownerId b |} in
        Some (b', set_boards <[id := b']> s)
    | None => None
    end.

(** Is the list a card refers to one of board [boardId]? *)
Definition card_in_board (s : Store) (boardId : string) (c : Card) : bool :=
  match lists s !! c_listId c with
  | Some l => bool_decide (l_boardId l = boardId)
  | None => false
  end.

Definition board_delete (id : string) : Query unit :=
  fun s =>
    match boards s !! id with
    | Some _ =>
        Some (tt, {| boards := delete id (boards s);
                     members := filter (fun p => m_boardId p.2 <> id) (members s);
                     lists := filter (fun p => l_boardId p.2 <> id) (lists s);
                     cards := filter (fun p => card_in_board s id p.2 = false) (cards s) |})
    | None => None
    end.

Definition list_create (id : string) (l : TList) : Query TList :=
  fun s =>
    match lists s !! id, boards s !! l_boardId l with
    | None, Some _ => if order_ok (l_order l) then Some (l, set_lists <[id := l]> s) else None
    | _, _ => None
    end.

Definition list_update_title (id : string) (title : string) : Query TList :=
  fun s =>
    match lists s !! id with
    | Some l =>
        let l' := {| l_title := title; l_order := l_order l; l_boardId := l_boardId l |} in
        Some (l', set_lists <[id := l']> s)
    | None => None
    end.

(** [prisma.list.update({ where: { id }, data: { order } })] with the raw
    [id] and [order] of a reorder entry. *)
Definition list_update_order (id order : JsVal) : Query TList :=
  fun s =>
    match id, int_of order with
    | JStr i, Some o =>
        match lists s !! i with
        | Some l =>
            if order_ok o then
              let l' := {| l_title := l_title l; l_order := o; l_boardId := l_boardId l |} in
              Some (l', set_lists <[i := l']> s)
            else None
        | None => None
        end
    | _, _ => None
    end.

Definition list_delete (id : string) : Query unit :=
  fun s =>
    match lists s !! id with
    | Some _ =>
        Some (tt, {| boards := boards s; members := members s;
                     lists := delete id (lists s);
                     cards := filter (fun p => c_listId p.2 <> id) (cards s) |})
    | None => None
    end.

Definition card_create (id : string) (n : CardCreate) : Query Card :=
  fun s =>
    match cards s !! id, lists s !! n_listId n, labels_of None (n_labels n) with
    | None, Some _, Some labels =>
        if order_ok (n_order n) && due_ok (n_dueDate n) then
          let c := {| c_title := n_title n; c_description := n_description n;
                      c_labels := labels; c_dueDate := n_dueDate n;
                      c_order := n_order n; c_listId := n_listId n |} in
          Some (c, set_cards <[id := c]> s)
        else None
    | _, _, _ => None
    end.

Definition card_update (id : string) (d : CardData) : Query Card :=
  fun s =>
    c ← cards s !! id;
    labels ← match d_labels d with
             | Some v => labels_of (Some (c_labels c)) v
             | None => Some (c_labels c)
             end;
    dueDate ← match d_dueDate d with
              | Some due => if due_ok due then Some due else None
              | None => Some (c_dueDate c)
              end;
    listId ← match d_listId d with
             | Some (JStr l) => _ ← lists s !! l; Some l
             | Some _ => None
             | None => Some (c_listId c)
             end;
    order ← match d_order d with
            | Some v => o ← int_of v; if order_ok o then Some o else None
            | None => Some (c_order c)
            end;
    let c' := {| c_title := default (c_title c) (d_title d);
                 c_description := default (c_description c) (d_description d);
                 c_labels := labels; c_dueDate := dueDate;
                 c_order := order; c_listId := listId |} in
    Some (c', set_cards <[id := c']> s).

Definition card_delete (id : string) : Query unit :=
  fun s =>
    match cards s !! id with
    | Some _ => Some (tt, set_cards (delete id) s)
    | None => None
    end.

(** [findUnique] with the nested [include] of the owning board and its
    member rows.  A required relation that does not resolve makes the client
    throw. *)
Definition BoardAndMembers : Type := Board * list Member.

Definition board_findUnique (id : string) : Prisma (option BoardAndMembers) :=
  read (fun s => b ← boards s !! id; Some (b, members_of s id)).

Definition list_findUnique (id : string) : Prisma (option (TList * BoardAndMembers)) :=
  s ← get;
  match lists s !! id with
  | None => mret None
  | Some l =>
      match boards s !! l_boardId l with
      | Some b => mret (Some (l, (b, members_of s (l_boardId l))))
      | None => throw
      end
  end.

Definition card_findUnique (id : string) : Prisma (option (Card * (TList * BoardAndMembers))) :=
  s ← get;
  match cards s !! id with
  | None => mret None
  | Some c =>
      l ← list_findUnique (c_listId c);
      match l with
      | Some l => mret (Some (c, l))
      | None => throw
      end
  end.

(** ** Responses *)

Inductive Payload : Type :=
| NoPayload
| BoardsP (bs : list (string * Board))
| BoardP (id : string) (b : Board)
| ListP (id : string) (l : TList)
| CardP (id : string) (c : Card)
| DeletedP (id title : string).

Record Response := mkResponse { status : Z; message : string; payload : Payload }.

Definition respond (code : Z) (msg : string) : Prisma Response :=
  mret {| status := code; message := msg; payload := NoPayload |}.

Definition respond_with (code : Z) (msg : string) (p : Payload) : Prisma Response :=
  mret {| status := code; message := msg; payload := p |}.

(** [req.user?.userId] followed by [if (!userId)]: the id when it is a
    non-empty string. *)
Definition authenticated (userId : option string) : option string :=
  match userId with
  | Some u => if bool_decide (u = "") then None else Some u
  | None => None
  end.

(** The access check every handler but [updateBoard] and [deleteBoard]
    inlines:
    [board.ownerId === userId || board.members.some(m => m.userId === userId)].
    ([getBoardById] reads the member's id through [member.user.id], the user
    row the member's [userId] refers to.) *)
Definition hasAccess (board : BoardAndMembers) (userId : string) : bool :=
  bool_decide (b_ownerId board.1 = userId)
  || existsb (fun m => bool_decide (m_userId m = userId)) board.2.

(** [maxOrder ? maxOrder.order + 1 : 0] *)
Definition nextOrder (maxOrder : option Z) : Z :=
  match maxOrder with
  | Some m => m + 1
  | None => 0
  end.

(** ** board.controller.ts *)

Definition getAllBoards (userId : option string) : Prisma Response :=
  match authenticated userId with
  | None => respond 401 "Unauthorized"
  | Some u =>
      bs ← read (fun s =>
              filter (fun p => hasAccess (p.2, members_of s p.1) u = true)
                     (map_to_list (boards s)));
      respond_with 200 "" (BoardsP bs)
  end.

Definition createBoard (userId : option string) (body : JsVal)
    (newId newMemberId : string) : Prisma Response :=
  title ← eval (prop body "title");
  match authenticated userId with
  | None => respond 401 "Unauthorized"
  | Some u =>
      match required_title title with
      | Reject => respond 400 "Board title is required"
      | Raise => throw
      | Accept t =>
          board ← await (board_create newId newMemberId
                           {| b_title := t; b_ownerId := u |}
                           {| m_boardId := newId; m_userId := u; m_role := "owner" |});
          respond_with 201 "Board created successfully" (BoardP newId board)
      end
  end.

Definition getBoardById (userId : option string) (id : string) : Prisma Response :=
  match authenticated userId with
  | None => respond 401 "Unauthorized"
  | Some u =>
      board ← board_findUnique id;
      match board with
      | None => respond 404 "Board not found"
      | Some board =>
          if negb (hasAccess board u)
          then respond 403 "Access denied. You are not a member of this board."
          else respond_with 200 "" (BoardP id board.1)
      end
  end.

Definition updateBoard (userId : option string) (id : string) (body : JsVal)
    : Prisma Response :=
  title ← eval (prop body "title");
  match authenticated userId with
  | None => respond 401 "Unauthorized"
  | Some u =>
      match required_title title with
      | Reject => respond 400 "Board title is required"
      | Raise => throw
      | Accept t =>
          board ← read (fun s => boards s !! id);
          match board with
          | None => respond 404 "Board not found"
          | Some board =>
              if negb (bool_decide (b_ownerId board = u))
              then respond 403 "Access denied. Only the board owner can update the board."
              else
                updatedBoard ← await (board_update id t);
                respond_with 200 "Board updated successfully" (BoardP id updatedBoard)
          end
      end
  end.

Definition deleteBoard (userId : option string) (id : string) : Prisma Response :=
  match authenticated userId with
  | None => respond 401 "Unauthorized"
  | Some u =>
      board ← read (fun s => boards s !! id);
      match board with
      | None => respond 404 "Board not found"
      | Some board =>
          if negb (bool_decide (b_ownerId board = u))
          then respond 403 "Access denied. Only the board owner can delete the board."
          else
            _ ← await (board_delete id);
            respond_with 200 "Board deleted successfully" (DeletedP id (b_title board))
      end
  end.

(** ** list.controller.ts *)

Definition createList (userId : option string) (boardId : string) (body : JsVal)
    (newId : string) : Prisma Response :=
  title ← eval (prop body "title");
  match authenticated userId with
  | None => respond 401 "Unauthorized"
  | Some u =>
      match required_title title with
      | Reject => respond 400 "List title is required"
      | Raise => throw
      | Accept t =>
          board ← board_findUnique boardId;
          match board with
          | None => respond 404 "Board not found"
          | Some board =>
              if negb (hasAccess board u)
              then respond 403 "Access denied. You are not a member of this board."
              else
                maxOrderList ← read (fun s => first_desc (list_orders s boardId));
                let order := nextOrder maxOrderList in
                list ← await (list_create newId
                                {| l_title := t; l_order := order; l_boardId := boardId |});
                respond_with 201 "List created successfully" (ListP newId list)
          end
      end
  end.

Definition updateList (userId : option string) (id : string) (body : JsVal)
    : Prisma Response :=
  title ← eval (prop body "title");
  match authenticated userId with
  | None => respond 401 "Unauthorized"
  | Some u =>
      match required_title title with
      | Reject => respond 400 "List title is required"
      | Raise => throw
      | Accept t =>
          list ← list_findUnique id;
          match list with
          | None => respond 404 "List not found"
          | Some (_, board) =>
              if negb (hasAccess board u)
              then respond 403 "Access denied. You are not a member of this board."
              else
                updatedList ← await (list_update_title id t);
                respond_with 200 "List updated successfully" (ListP id updatedList)
          end
      end
  end.

Definition deleteList (userId : option string) (id : string) : Prisma Response :=
  match authenticated userId with
  | None => respond 401 "Unauthorized"
  | Some u =>
      list ← list_findUnique id;
      match list with
      | None => respond 404 "List not found"
      | Some (list, board) =>
          if negb (hasAccess board u)
          then respond 403 "Access denied. You are not a member of this board."
          else
            _ ← await (list_delete id);
            respond_with 200 "List deleted successfully" (DeletedP id (l_title list))
      end
  end.

(** The loop [for (const list of lists) if (!list.id || typeof list.order
    !== 'number') { 400 }], returning the [(id, order)] pairs that
    [lists.map(({ id, order }) => ...)] destructures afterwards. *)
Fixpoint check_entries (entries : list JsVal) : Checked (list (JsVal * JsVal)) :=
  match entries with
  | [] => Accept []
  | e :: entries' =>
      match prop e "id", prop e "order" with
      | Value i, Value o =>
          if negb (truthy i) || negb (is_number o) then Reject
          else match check_entries entries' with
               | Accept ps => Accept ((i, o) :: ps)
               | Reject => Reject
               | Raise => Raise
               end
      | _, _ => Raise
      end
  end.

(** [!lists || !Array.isArray(lists) || lists.length === 0] fails exactly on
    a non-empty array. *)
Definition nonempty_array (lists : JsVal) : option (list JsVal) :=
  match lists with
  | JArr (e :: entries) => Some (e :: entries)
  | _ => None
  end.

Definition reorderLists (userId : option string) (body : JsVal) : Prisma Response :=
  lists ← eval (prop body "lists");
  match authenticated userId with
  | None => respond 401 "Unauthorized"
  | Some u =>
      match nonempty_array lists with
      | None => respond 400 "Lists array is required"
      | Some entries =>
          match check_entries entries with
          | Reject => respond 400 "Each list must have id and order"
          | Raise => throw
          | Accept pairs =>
              firstList ← match pairs with
                          | (JStr i, _) :: _ => list_findUnique i
                          | _ => throw
                          end;
              match firstList with
              | None => respond 404 "List not found"
              | Some (_, board) =>
                  if negb (hasAccess board u)
                  then respond 403 "Access denied. You are not a member of this board."
                  else
                    _ ← transaction ((fun p => list_update_order p.1 p.2) <$> pairs);
                    respond 200 "Lists reordered successfully"
              end
          end
      end
  end.

(** ** card.controller.ts *)

(** [description?.trim() || null] *)
Definition trimmed_or_null (description : JsVal) : Result (option string) :=
  match description with
  | JUndefined | JNull => Value None
  | JStr s => Value (if bool_decide (trim s = "") then None else Some (trim s))
  | _ => Thrown
  end.

(** [dueDate ? new Date(dueDate) : null] *)
Definition date_or_null (dueDate : JsVal) : option JsVal :=
  if truthy dueDate then Some dueDate else None.

Definition createCard (userId : option string) (listId : string) (body : JsVal)
    (newId : string) : Prisma Response :=
  title ← eval (prop body "title");
  description ← eval (prop body "description");
  labels ← eval (prop body "labels");
  dueDate ← eval (prop body "dueDate");
  match authenticated userId with
  | None => respond 401 "Unauthorized"
  | Some u =>
      match required_title title with
      | Reject => respond 400 "Card title is required"
      | Raise => throw
      | Accept t =>
          list ← list_findUnique listId;
          match list with
          | None => respond 404 "List not found"
          | Some (_, board) =>
              if negb (hasAccess board u)
              then respond 403 "Access denied. You are not a member of this board."
              else
                maxOrderCard ← read (fun s => first_desc (card_orders s listId));
                let order := nextOrder maxOrderCard in
                description' ← eval (trimmed_or_null description);
                card ← await (card_create newId
                                {| n_title := t; n_description := description';
                                   n_order := order; n_listId := listId;
                                   n_labels := if truthy labels then labels else JArr [];
                                   n_dueDate := date_or_null dueDate |});
                respond_with 201 "Card created successfully" (CardP newId card)
          end
      end
  end.

Definition getCard (userId : option string) (id : string) : Prisma Response :=
  match authenticated userId with
  | None => respond 401 "Unauthorized"
  | Some u =>
      card ← card_findUnique id;
      match card with
      | None => respond 404 "Card not found"
      | Some (card, (_, board)) =>
          if negb (hasAccess board u)
          then respond 403 "Access denied. You are not a member of this board."
          else respond_with 200 "" (CardP id card)
      end
  end.

(** [if (title !== undefined) { if (title.trim() === '') { 400 } ... }] *)
Definition optional_title (title : JsVal) : Checked (option string) :=
  match title with
  | JUndefined => Accept None
  | JStr s => if bool_decide (trim s = "") then Reject else Accept (Some (trim s))
  | _ => Raise
  end.

(** [if (v !== undefined) updateData.k = f(v)] *)
Definition when_defined {A : Type} (v : JsVal) (f : JsVal -> A) : option A :=
  match v with
  | JUndefined => None
  | _ => Some (f v)
  end.

Definition updateCard (userId : option string) (id : string) (body : JsVal)
    : Prisma Response :=
  title ← eval (prop body "title");
  description ← eval (prop body "description");
  labels ← eval (prop body "labels");
  dueDate ← eval (prop body "dueDate");
  match authenticated userId with
  | None => respond 401 "Unauthorized"
  | Some u =>
      card ← card_findUnique id;
      match card with
      | None => respond 404 "Card not found"
      | Some (_, (_, board)) =>
          if negb (hasAccess board u)
          then respond 403 "Access denied. You are not a member of this board."
          else
            match optional_title title with
            | Reject => respond 400 "Card title cannot be empty"
            | Raise => throw
            | Accept title' =>
                description' ← match description with
                               | JUndefined => mret None
                               | _ => d ← eval (trimmed_or_null description); mret (Some d)
                               end;
                let updateData :=
                  {| d_title := title';
                     d_description := description';
                     d_labels := when_defined labels (fun v => v);
                     d_dueDate := when_defined dueDate date_or_null;
                     d_listId := None; d_order := None |} in
                updatedCard ← await (card_update id updateData);
                respond_with 200 "Card updated successfully" (CardP id updatedCard)
            end
      end
  end.

Definition deleteCard (userId : option string) (id : string) : Prisma Response :=
  match authenticated userId with
  | None => respond 401 "Unauthorized"
  | Some u =>
      card ← card_findUnique id;
      match card with
      | None => respond 404 "Card not found"
      | Some (card, (_, board)) =>
          if negb (hasAccess board u)
          then respond 403 "Access denied. You are not a member of this board."
          else
            _ ← await (card_delete id);
            respond_with 200 "Card deleted successfully" (DeletedP id (c_title card))
      end
  end.

Definition moveCard (userId : option string) (id : string) (body : JsVal)
    : Prisma Response :=
  listId ← eval (prop body "listId");
  order ← eval (prop body "order");
  match authenticated userId with
  | None => respond 401 "Unauthorized"
  | Some u =>
      if negb (truthy listId) || negb (is_number order)
      then respond 400 "listId and order are required"
      else
        card ← card_findUnique id;
        match card with
        | None => respond 404 "Card not found"
        | Some (_, (_, board)) =>
            if negb (hasAccess board u)
            then respond 403 "Access denied. You are not a member of this board."
            else
              targetList ← match listId with
                           | JStr l => list_findUnique l
                           | _ => throw
                           end;
              match targetList with
              | None => respond 404 "Target list not found"
              | Some (_, targetBoard) =>
                  if negb (hasAccess targetBoard u)
                  then respond 403 "Access denied. You are not a member of the target board."
                  else
                    movedCard ← await (card_update id
                                  {| d_title := None; d_description := None;
                                     d_labels := None; d_dueDate := None;
                                     d_listId := Some listId; d_order := Some order |});
                    respond_with 200 "Card moved successfully" (CardP id movedCard)
              end
        end
  end.

(** ** Requests and the outer try/catch *)

(** A request as a handler receives it: the route parameters, the parsed
    body and, for a creation, the id the store generates for the new row. *)
Inductive Request : Type :=
| GetAllBoards
| CreateBoard (body : JsVal) (newId newMemberId : string)
| GetBoardById (id : string)
| UpdateBoard (id : string) (body : JsVal)
| DeleteBoard (id : string)
| CreateList (boardId : string) (body : JsVal) (newId : string)
| UpdateList (id : string) (body : JsVal)
| DeleteList (id : string)
| ReorderLists (body : JsVal)
| CreateCard (listId : string) (body : JsVal) (newId : string)
| GetCard (id : string)
| UpdateCard (id : string) (body : JsVal)
| DeleteCard (id : string)
| MoveCard (id : string) (body : JsVal).

Definition handler (userId : option string) (r : Request) : Prisma Response :=
  match r with
  | GetAllBoards => getAllBoards userId
  | CreateBoard body newId newMemberId => createBoard userId body newId newMemberId
  | GetBoardById id => getBoardById userId id
  | UpdateBoard id body => updateBoard userId id body
  | DeleteBoard id => deleteBoard userId id
  | CreateList boardId body newId => createList userId boardId body newId
  | UpdateList id body => updateList userId id body
  | DeleteList id => deleteList userId id
  | ReorderLists body => reorderLists userId body
  | CreateCard listId body newId => createCard userId listId body newId
  | GetCard id => getCard userId id
  | UpdateCard id body => updateCard userId id body
  | DeleteCard id => deleteCard userId id
  | MoveCard id body => moveCard userId id body
  end.

(** [try { ... } catch (error) { res.status(500).json({ message: 'Server
    error' }) }] around a handler body, started on store [s]. *)
Definition run (h : Prisma Response) (s : Store) : Response * World :=
  match h {| now := s; past := [] |} with
  | (Value r, w) => (r, w)
  | (Thrown, w) => ({| status := 500; message := "Server error"; payload := NoPayload |}, w)
  end.

Definition handle (userId : option string) (r : Request) (s : Store) : Response * World :=
  run (handler userId r) s.

(** ** Vocabulary of the properties *)

(** The world a handler leaves when it has committed nothing. *)
Definition unchanged (s : Store) : World := {| now := s; past := [] |}.

(** A member row of the board exists for the user. *)
Definition is_member (s : Store) (boardId u : string) : Prop :=
  exists k m, members s !! k = Some m /\ m_boardId m = boardId /\ m_userId m = u.

(** The board a list, or a card through its list, belongs to. *)
Definition board_of_list (s : Store) (listId : string) : option string :=
  l ← lists s !! listId; _ ← boards s !! l_boardId l; Some (l_boardId l).

Definition board_of_card (s : Store) (id : string) : option string :=
  c ← cards s !! id; board_of_list s (c_listId c).

(** The body carries a title that passes [required_title]. *)
Definition accepted_title (body : JsVal) : bool :=
  match prop body "title" with
  | Value t => match required_title t with Accept _ => true | _ => false end
  | Thrown => false
  end.

(** The [(id, order)] pairs of a reorder body that passes validation. *)
Definition reorder_pairs (body : JsVal) : option (list (JsVal * JsVal)) :=
  match prop body "lists" with
  | Value lists =>
      entries ← nonempty_array lists;
      match check_entries entries with
      | Accept pairs => Some pairs
      | _ => None
      end
  | Thrown => None
  end.

(** The list id a reorder request is authorized through. *)
Definition first_id (body : JsVal) : option string :=
  match reorder_pairs body with
  | Some ((JStr i, _) :: _) => Some i
  | _ => None
  end.

(** [listId] and [order] of a move body that passes validation. *)
Definition move_args (body : JsVal) : option (JsVal * JsVal) :=
  match prop body "listId", prop body "order" with
  | Value l, Value o =>
      if negb (truthy l) || negb (is_number o) then None else Some (l, o)
  | _, _ => None
  end.

(** The optional fields of a [createCard] body are such that the handler
    and the store take them: [description] is absent, [null] or a string,
    [labels] is falsy or fits the column, and [dueDate] is falsy or a valid
    date. *)
Definition card_fields_ok (body : JsVal) : bool :=
  match prop body "description", prop body "labels", prop body "dueDate" with
  | Value description, Value labels, Value dueDate =>
      match trimmed_or_null description with
      | Value _ => true
      | Thrown => false
      end
      && bool_decide (is_Some (labels_of None (if truthy labels then labels else JArr [])))
      && due_ok (date_or_null dueDate)
  | _, _, _ => false
  end.

Definition has_body (body : JsVal) : bool :=
  match body with
  | JUndefined | JNull => false
  | _ => true
  end.

(** The request passes the validation its handler performs before it loads
    anything from the store. *)
Definition payload_ok (r : Request) : bool :=
  match r with
  | GetAllBoards | GetBoardById _ | DeleteBoard _ | DeleteList _
  | GetCard _ | DeleteCard _ => true
  | CreateBoard body _ _ | UpdateBoard _ body | CreateList _ body _
  | UpdateList _ body | CreateCard _ body _ => accepted_title body
  | ReorderLists body => bool_decide (is_Some (first_id body))
  | UpdateCard _ body => has_body body
  | MoveCard _ body => bool_decide (is_Some (move_args body))
  end.

(** The boards on which the handler of [r], run on [s] for an authenticated
    user, evaluates an access check, in that order: none when validation
    stops the request or its target does not resolve. *)
Definition checked_boards (s : Store) (r : Request) : list string :=
  if payload_ok r then
    match r with
    | GetAllBoards | CreateBoard _ _ _ => []
    | GetBoardById id | UpdateBoard id _ | DeleteBoard id | CreateList id _ _ =>
        option_list (_ ← boards s !! id; Some id)
    | UpdateList id _ | DeleteList id | CreateCard id _ _ =>
        option_list (board_of_list s id)
    | ReorderLists body => option_list (first_id body ≫= board_of_list s)
    | GetCard id | UpdateCard id _ | DeleteCard id => option_list (board_of_card s id)
    | MoveCard id body =>
        match board_of_card s id with
        | Some source =>
            source :: match move_args body with
                      | Some (JStr l, _) => option_list (board_of_list s l)
                      | _ => []
                      end
        | None => []
        end
    end
  else [].

(** The two handlers that demand ownership instead of access. *)
Definition owner_only (r : Request) : bool :=
  match r with
  | UpdateBoard _ _ | DeleteBoard _ => true
  | _ => false
  end.

(** The entity a handler loads first does not exist. *)
Definition target_missing (s : Store) (r : Request) : bool :=
  match r with
  | GetAllBoards | CreateBoard _ _ _ => false
  | GetBoardById id | UpdateBoard id _ | DeleteBoard id | CreateList id _ _ =>
      bool_decide (boards s !! id = None)
  | UpdateList id _ | DeleteList id | CreateCard id _ _ =>
      bool_decide (lists s !! id = None)
  | ReorderLists body =>
      match first_id body with
      | Some i => bool_decide (lists s !! i = None)
      | None => false
      end
  | GetCard id | UpdateCard id _ | DeleteCard id | MoveCard id _ =>
      bool_decide (cards s !! id = None)
  end.

(** The store with another member table. *)
Definition with_members (ms : gmap string Member) (s : Store) : Store :=
  {| boards := boards s; members := ms; lists := lists s; cards := cards s |}.

(** The order a reorder payload assigns to list [i]: the pairs are applied
    in sequence, so the last pair that names [i] decides. *)
Fixpoint assigned (i : string) (pairs : list (JsVal * JsVal)) : option Z :=
  match pairs with
  | [] => None
  | (JStr j, v) :: pairs' =>
      match assigned i pairs' with
      | Some o' => Some o'
      | None => if bool_decide (j = i) then int_of v else None
      end
  | _ :: pairs' => assigned i pairs'
  end.

Definition with_order (o : option Z) (l : TList) : TList :=
  match o with
  | Some z => {| l_title := l_title l; l_order := z; l_boardId := l_boardId l |}
  | None => l
  end.

(** The card after a move to list [l] at position [z]. *)
Definition moved (c : Card) (l : string) (z : Z) : Card :=
  {| c_title := c_title c; c_description := c_description c;
     c_labels := c_labels c; c_dueDate := c_dueDate c;
     c_order := z; c_listId := l |}.

(** ** Further vocabulary: invariants of the store and shapes of requests *)

(** Every list is on a stored board, every card on a stored list, every
    member row on a stored board. *)
Definition integrity (s : Store) : Prop :=
  (forall k l, lists s !! k = Some l -> is_Some (boards s !! l_boardId l))
  /\ (forall k c, cards s !! k = Some c -> is_Some (lists s !! c_listId c))
  /\ (forall k m, members s !! k = Some m -> is_Some (boards s !! m_boardId m)).

(** The front of a string holds nothing [strip] would take. *)
Definition clean (w2 : ascii -> ascii -> bool) (w3 : ascii -> ascii -> ascii -> bool)
    (s : list ascii) : bool :=
  match s with
  | a :: s1 =>
      negb (is_ws a)
      && match s1 with
         | b :: s2 =>
             negb (w2 a b)
             && match s2 with
                | c :: _ => negb (w3 a b c)
                | [] => true
                end
         | [] => true
         end
  | [] => true
  end.

(** A title as the handlers store it: not empty, and with nothing left to
    trim. *)
Definition trimmed (t : string) : Prop := t <> "" /\ trim t = t.

Definition titles_trimmed (s : Store) : Prop :=
  (forall k b, boards s !! k = Some b -> trimmed (b_title b))
  /\ (forall k l, lists s !! k = Some l -> trimmed (l_title l))
  /\ (forall k c, cards s !! k = Some c -> trimmed (c_title c)).

(** The user is neither owner nor member of any stored board. *)
Definition no_access (s : Store) (u : string) : Prop :=
  forall k b, boards s !! k = Some b -> hasAccess (b, members_of s k) u = false.

(** The body of a request, for the handlers that read one. *)
Definition body_of (r : Request) : option JsVal :=
  match r with
  | CreateBoard body _ _ | UpdateBoard _ body | CreateList _ body _
  | UpdateList _ body | ReorderLists body | CreateCard _ body _
  | UpdateCard _ body | MoveCard _ body => Some body
  | _ => None
  end.

Definition is_createBoard (r : Request) : bool :=
  match r with
  | CreateBoard _ _ _ => true
  | _ => false
  end.

Definition is_reorderLists (r : Request) : bool :=
  match r with
  | ReorderLists _ => true
  | _ => false
  end.

(** A body that asks to move a card to list [l] at position [z]. *)
Definition move_body (l : string) (z : Z) : JsVal :=
  JObj [("listId", JStr l); ("order", JNum z)].

(** ** The writes of the handlers as a transition relation

    [Step u r s s'] lists the ways request [r] of user [u] can take the
    store from [s] to [s']: not at all, or by the one write of its handler,
    which requires the access or ownership the handler checks. *)
Inductive Step (u : string) : Request -> Store -> Store -> Prop :=
| step_none r s :
    Step u r s s
| step_createBoard body newId newMemberId t s :
    boards s !! newId = None ->
    members s !! newMemberId = None ->
    trimmed t ->
    Step u (CreateBoard body newId newMemberId) s
      {| boards := <[newId := mkBoard t u]> (boards s);
         members := <[newMemberId := mkMember newId u "owner"]> (members s);
         lists := lists s; cards := cards s |}
| step_updateBoard id body b t s :
    boards s !! id = Some b ->
    b_ownerId b = u ->
    trimmed t ->
    Step u (UpdateBoard id body) s
      (set_boards <[id := mkBoard t (b_ownerId b)]> s)
| step_deleteBoard id b s :
    boards s !! id = Some b ->
    b_ownerId b = u ->
    Step u (DeleteBoard id) s
      {| boards := delete id (boards s);
         members := filter (fun p => m_boardId p.2 <> id) (members s);
         lists := filter (fun p => l_boardId p.2 <> id) (lists s);
         cards := filter (fun p => card_in_board s id p.2 = false) (cards s) |}
| step_createList boardId body newId b t z s :
    boards s !! boardId = Some b ->
    hasAccess (b, members_of s boardId) u = true ->
    lists s !! newId = None ->
    trimmed t ->
    Step u (CreateList boardId body newId) s
      (set_lists <[newId := mkList t z boardId]> s)
| step_updateList id body l b t s :
    lists s !! id = Some l ->
    boards s !! l_boardId l = Some b ->
    hasAccess (b, members_of s (l_boardId l)) u = true ->
    trimmed t ->
    Step u (UpdateList id body) s
      (set_lists <[id := mkList t (l_order l) (l_boardId l)]> s)
| step_deleteList id l b s :
    lists s !! id = Some l ->
    boards s !! l_boardId l = Some b ->
    hasAccess (b, members_of s (l_boardId l)) u = true ->
    Step u (DeleteList id) s
      {| boards := boards s; members := members s;
         lists := delete id (lists s);
         cards := filter (fun p => c_listId p.2 <> id) (cards s) |}
| step_reorderLists body pairs i l b r s s' :
    reorder_pairs body = Some pairs ->
    first_id body = Some i ->
    lists s !! i = Some l ->
    boards s !! l_boardId l = Some b ->
    hasAccess (b, members_of s (l_boardId l)) u = true ->
    run_batch ((fun p => list_update_order p.1 p.2) <$> pairs) s = Some (r, s') ->
    Step u (ReorderLists body) s s'
| step_createCard listId body newId l b c s :
    lists s !! listId = Some l ->
    boards s !! l_boardId l = Some b ->
    hasAccess (b, members_of s (l_boardId l)) u = true ->
    cards s !! newId = None ->
    c_listId c = listId ->
    trimmed (c_title c) ->
    Step u (CreateCard listId body newId) s (set_cards <[newId := c]> s)
| step_updateCard id body c l b c' s :
    cards s !! id = Some c ->
    lists s !! c_listId c = Some l ->
    boards s !! l_boardId l = Some b ->
    hasAccess (b, members_of s (l_boardId l)) u = true ->
    c_listId c' = c_listId c ->
    c_order c' = c_order c ->
    c_title c' = c_title c \/ trimmed (c_title c') ->
    Step u (UpdateCard id body) s (set_cards <[id := c']> s)
| step_moveCard id body c l b l' z tl tb s :
    cards s !! id = Some c ->
    lists s !! c_listId c = Some l ->
    boards s !! l_boardId l = Some b ->
    hasAccess (b, members_of s (l_boardId l)) u = true ->
    lists s !! l' = Some tl ->
    boards s !! l_boardId tl = Some tb ->
    hasAccess (tb, members_of s (l_boardId tl)) u = true ->
    Step u (MoveCard id body) s (set_cards <[id := moved c l' z]> s)
| step_deleteCard id c l b s :
    cards s !! id = Some c ->
    lists s !! c_listId c = Some l ->
    boards s !! l_boardId l = Some b ->
    hasAccess (b, members_of s (l_boardId l)) u = true ->
    Step u (DeleteCard id) s (set_cards (delete id) s).

(** ** middleware/auth.ts and utils/jwt.ts

    The jsonwebtoken library is a parameter, the interface [Jwt]. *)

Context {jwt : Jwt}.

Definition generateToken (payload : JwtPayload) : string := jwt_sign payload.

(** [verifyToken] rethrows whatever [jwt.verify] throws as one error. *)
Definition verifyToken (token : string) : option JwtPayload := jwt_verify token.

(** [s.split(' ')] *)
Fixpoint split_space (s : string) : list string :=
  match s with
  | EmptyString => [EmptyString]
  | String a s' =>
      if Ascii.eqb a " " then EmptyString :: split_space s'
      else match split_space s' with
           | piece :: pieces => String a piece :: pieces
           | [] => [String a EmptyString]
           end
  end.

(** A string without a space. *)
Fixpoint spaceless (s : string) : bool :=
  match s with
  | EmptyString => true
  | String a s' => negb (Ascii.eqb a " ") && spaceless s'
  end.

(** [authHeader && authHeader.split(' ')[1]]; [None] is [undefined]. *)
Definition bearer_token (authorization : option string) : option string :=
  match authorization with
  | Some header =>
      if bool_decide (header = "") then Some "" else split_space header !! 1%nat
  | None => None
  end.

(** What the middleware does with a request: answer it, or attach the
    decoded payload as [req.user] and call [next()]. *)
Inductive Passed : Type :=
| Refused (r : Response)
| Next (user : JwtPayload).

Definition authenticateToken (authorization : option string) : Passed :=
  match bearer_token authorization with
  | None | Some EmptyString =>
      Refused {| status := 401; message := "Access denied. No token provided.";
                 payload := NoPayload |}
  | Some token =>
      match verifyToken token with
      | Some decoded => Next decoded
      | None =>
          Refused {| status := 403; message := "Invalid or expired token";
                     payload := NoPayload |}
      end
  end.

(** ** The routers (routes/board.routes.ts, list.routes.ts, card.routes.ts)

    A request reaches a router as its method, the segments of its path
    below the mount point, its Authorization header and its parsed body.
    Matching follows Express with its default options: routes are tried in
    the order of their registration, a literal segment matches without
    regard to case, [:name] matches one non-empty segment, which is then
    URI-decoded ([decodeURIComponent] of [Runtime]; a segment that does not
    decode is answered 400), one trailing slash is ignored, and HEAD is
    served by the GET routes.  (OPTIONS is answered by the cors middleware
    of index.ts before any router.) *)

Context {js : Runtime}.

Inductive Method : Type := GET | HEAD | POST | PUT | DELETE | OtherMethod.

#[export] Instance Method_eq_dec : EqDecision Method.
Proof. solve_decision. Defined.

Record HttpRequest := mkHttp {
  h_method : Method;
  h_path : list string;
  h_authorization : option string;
  h_body : JsVal;
  h_newId : string;        (* the ids the store generates, should the *)
  h_newMemberId : string   (* handler create rows *) }.

Inductive Seg : Type :=
| Lit (s : string)
| Par.

Definition lower_ascii (a : ascii) : ascii :=
  let n := N_of_ascii a in
  if ((65 <=? n) && (n <=? 90))%N then ascii_of_N (n + 32) else a.

Fixpoint lower (s : string) : string :=
  match s with
  | EmptyString => EmptyString
  | String a s' => String (lower_ascii a) (lower s')
  end.

Fixpoint match_path (pattern : list Seg) (path : list string) : option (list string) :=
  match pattern, path with
  | [], [] => Some []
  | Lit a :: pattern', seg :: path' =>
      if bool_decide (lower a = lower seg) then match_path pattern' path' else None
  | Par :: pattern', seg :: path' =>
      if bool_decide (seg = "") then None else cons seg <$> match_path pattern' path'
  | _, _ => None
  end.

(** One trailing slash shows as a final empty segment. *)
Fixpoint strip_slash (path : list string) : list string :=
  match path with
  | [] => []
  | [EmptyString] => []
  | seg :: path' => seg :: strip_slash path'
  end.

Definition method_matches (route request : Method) : bool :=
  bool_decide (route = request)
  || (bool_decide (route = GET) && bool_decide (request = HEAD)).

(** The handler of a route, applied to its parameter when it has one. *)
Inductive Target : Type :=
| Plain (f : HttpRequest -> Request)
| WithParam (f : string -> HttpRequest -> Request).

Definition Route : Type := Method * list Seg * Target.

Inductive Routed : Type :=
| NoRoute
| BadParam
| Handler (r : Request).

(** The handler of a matched route on the captured segments. *)
Definition call (target : Target) (params : list string) (q : HttpRequest)
    : option Routed :=
  match params, target with
  | [], Plain f => Some (Handler (f q))
  | [p], WithParam f =>
      Some (match decodeURIComponent p with
            | Some v => Handler (f v q)
            | None => BadParam
            end)
  | _, _ => None
  end.

Fixpoint dispatch (routes : list Route) (q : HttpRequest) : Routed :=
  match routes with
  | [] => NoRoute
  | (m, pattern, target) :: routes' =>
      if method_matches m (h_method q) then
        match match_path pattern (strip_slash (h_path q)) ≫= (fun ps => call target ps q) with
        | Some routed => routed
        | None => dispatch routes' q
        end
      else dispatch routes' q
  end.

Definition boardRoutes : list Route :=
  [ (GET, [], Plain (fun _ => GetAllBoards));
    (POST, [], Plain (fun q => CreateBoard (h_body q) (h_newId q) (h_newMemberId q)));
    (GET, [Par], WithParam (fun id _ => GetBoardById id));
    (PUT, [Par], WithParam (fun id q => UpdateBoard id (h_body q)));
    (DELETE, [Par], WithParam (fun id _ => DeleteBoard id)) ].

Definition listRoutes : list Route :=
  [ (POST, [Lit "boards"; Par; Lit "lists"],
     WithParam (fun boardId q => CreateList boardId (h_body q) (h_newId q)));
    (PUT, [Lit "lists"; Par], WithParam (fun id q => UpdateList id (h_body q)));
    (DELETE, [Lit "lists"; Par], WithParam (fun id _ => DeleteList id));
    (PUT, [Lit "lists"; Lit "reorder"], Plain (fun q => ReorderLists (h_body q))) ].

Definition cardRoutes : list Route :=
  [ (POST, [Lit "lists"; Par; Lit "cards"],
     WithParam (fun listId q => CreateCard listId (h_body q) (h_newId q)));
    (GET, [Lit "cards"; Par], WithParam (fun id _ => GetCard id));
    (PUT, [Lit "cards"; Par], WithParam (fun id q => UpdateCard id (h_body q)));
    (DELETE, [Lit "cards"; Par], WithParam (fun id _ => DeleteCard id));
    (PUT, [Lit "cards"; Par; Lit "move"],
     WithParam (fun id q => MoveCard id (h_body q))) ].

(** [router.use(authenticateToken)] followed by the routes; [None] when the
    request falls through the router. *)
Definition router (routes : list Route) (q : HttpRequest) (s : Store)
    : option (Response * World) :=
  match authenticateToken (h_authorization q) with
  | Refused r => Some (r, unchanged s)
  | Next user =>
      match dispatch routes q with
      | Handler r => Some (handle (Some (p_userId user)) r s)
      | BadParam =>
          Some ({| status := 400; message := "Bad Request"; payload := NoPayload |},
                unchanged s)
      | NoRoute => None
      end
  end.

(** ** controllers/auth.controller.ts

    The user table is a map from ids to [User] rows; [email] is unique
    (the controller looks users up by it with [findUnique]).  The bcryptjs
    library is a parameter, the interface [Bcrypt]. *)

Context {bcrypt : Bcrypt}.

(** A response of the auth controller; the user in it is shown by id, email
    and name. *)
Record AuthResponse := mkAuthResponse {
  a_status : Z;
  a_message : string;
  a_token : option string;
  a_user : option (string * string * string) }.

Definition auth_message (code : Z) (msg : string) : AuthResponse :=
  {| a_status := code; a_message := msg; a_token := None; a_user := None |}.

Definition auth_server_error : AuthResponse := auth_message 500 "Server error".

(** [prisma.user.findUnique({ where: { email } })] *)
Definition user_by_email (users : gmap string User) (email : string)
    : option (string * User) :=
  head (filter (fun p => u_email p.2 = email) (map_to_list users)).

(** [prisma.user.create]: the id is new and the email not taken. *)
Definition user_create (id : string) (u : User) (users : gmap string User)
    : option (gmap string User) :=
  match users !! id, user_by_email users (u_email u) with
  | None, None => Some (<[id := u]> users)
  | _, _ => None
  end.

Definition public (id : string) (u : User) : string * string * string :=
  (id, u_email u, u_name u).

(** [register]: [newId] is the id the store gives the new user and [salt]
    the salt [bcrypt.hash] draws.  A truthy email, password or name that is
    not a string makes Prisma or bcryptjs throw, which the handler answers
    with 500. *)
Definition register (body : JsVal) (newId salt : string) (users : gmap string User)
    : AuthResponse * gmap string User :=
  match prop body "email", prop body "password", prop body "name" with
  | Value email, Value password, Value name =>
      if negb (truthy email) || negb (truthy password) || negb (truthy name)
      then (auth_message 400 "Email, password, and name are required", users)
      else
        match email with
        | JStr email =>
            match user_by_email users email with
            | Some _ => (auth_message 400 "User already exists with this email", users)
            | None =>
                match password, name with
                | JStr password, JStr name =>
                    let hashedPassword := bcrypt_hash salt password in
                    let user := {| u_email := email; u_password := hashedPassword;
                                   u_name := name |} in
                    match user_create newId user users with
                    | Some users' =>
                        let token := generateToken
                                       {| p_userId := newId; p_email := email |} in
                        ({| a_status := 201;
                            a_message := "User registered successfully";
                            a_token := Some token;
                            a_user := Some (public newId user) |}, users')
                    | None => (auth_server_error, users)
                    end
                | _, _ => (auth_server_error, users)
                end
            end
        | _ => (auth_server_error, users)
        end
  | _, _, _ => (auth_server_error, users)
  end.

(** [login]: an unknown email and a wrong password get the same answer. *)
Definition login (body : JsVal) (users : gmap string User) : AuthResponse :=
  match prop body "email", prop body "password" with
  | Value email, Value password =>
      if negb (truthy email) || negb (truthy password)
      then auth_message 400 "Email and password are required"
      else
        match email with
        | JStr email =>
            match user_by_email users email with
            | None => auth_message 401 "Invalid email or password"
            | Some (id, user) =>
                match password with
                | JStr password =>
                    if negb (bcrypt_compare password (u_password user))
                    then auth_message 401 "Invalid email or password"
                    else
                      let token := generateToken
                                     {| p_userId := id; p_email := u_email user |} in
                      {| a_status := 200; a_message := "Login successful";
                         a_token := Some token; a_user := Some (public id user) |}
                | _ => auth_server_error
                end
            end
        | _ => auth_server_error
        end
  | _, _ => auth_server_error
  end.

(** [getProfile]: [userId] is [req.user?.userId]; the selected [createdAt]
    column is left out of the modelled row. *)
Definition getProfile (userId : option string) (users : gmap string User)
    : AuthResponse :=
  match authenticated userId with
  | None => auth_message 401 "Unauthorized"
  | Some userId =>
      match users !! userId with
      | None => auth_message 404 "User not found"
      | Some user =>
          {| a_status := 200; a_message := ""; a_token := None;
             a_user := Some (public userId user) |}
      end
  end.

(** No two users share an email. *)
Definition unique_emails (users : gmap string User) : Prop :=
  forall k1 k2 u1 u2,
    users !! k1 = Some u1 -> users !! k2 = Some u2 ->
    u_email u1 = u_email u2 -> k1 = k2.

(** A body with the credentials of a login. *)
Definition credentials (email password : string) : JsVal :=
  JObj [("email", JStr email); ("password", JStr password)].

(** The three fields of a registration body, as strings. *)
Definition body_fields (body : JsVal) (email password name : string) : Prop :=
  prop body "email" = Value (JStr email)
  /\ prop body "password" = Value (JStr password)
  /\ prop body "name" = Value (JStr name).


(** ** Running a handler symbolically *)

Ltac prisma_unfold :=
  unfold handle, run, handler,
    getAllBoards, createBoard, getBoardById, updateBoard, deleteBoard,
    createList, updateList, deleteList, reorderLists,
    createCard, getCard, updateCard, deleteCard, moveCard,
    transaction, await, card_findUnique, list_findUnique, board_findUnique,
    respond, respond_with, eval, get, read, commit, throw,
    mbind, mret, Prisma_bind, Prisma_ret, option_bind in *;
  cbn [now past fst snd] in *.

Ltac innermost t :=
  lazymatch t with
  | context [match ?x with _ => _ end] => innermost x
  | _ => t
  end.

(** Case analysis on the next thing the handler inspects. *)
Ltac prisma_step :=
  match goal with
  | |- context [match ?x with _ => _ end] =>
      let y := innermost x in
      first [ match goal with H : y = _ |- _ => rewrite H end
            | destruct y eqn:? ]
  end;
  cbn [now past fst snd status] in *; simplify_eq/=.

Ltac prisma_run := prisma_unfold; repeat (prisma_step; try done).

(** The same, looking into the queries as well. *)
Ltac query_unfold :=
  unfold board_create, board_update, board_delete, list_create,
    list_update_title, list_delete, card_create, card_update, card_delete,
    set_boards, set_lists, set_cards in *;
  cbn [boards members lists cards now past fst snd] in *.

Ltac prisma_run_queries :=
  prisma_unfold; query_unfold; unfold mbind, option_bind in *;
  repeat (prisma_step; try done).

(** ** General facts *)

(** No error path commits anything: a response other than 200 and 201
    leaves the store as it was, with no intermediate commit. *)
Lemma handle_failure_unchanged userId r s :
  status (handle userId r s).1 <> 200 ->
  status (handle userId r s).1 <> 201 ->
  (handle userId r s).2 = unchanged s.
Proof.
  unfold unchanged. destruct r; prisma_run; intros; done.
Qed.

(** Every handler commits at most once. *)
Lemma handle_one_commit userId r s :
  (handle userId r s).2 = unchanged s
  \/ past (handle userId r s).2 = [s].
Proof.
  unfold unchanged. destruct r; prisma_run; auto.
Qed.

Lemma elem_of_members_of s boardId m :
  m ∈ members_of s boardId <->
  (exists k, members s !! k = Some m) /\ m_boardId m = boardId.
Proof.
  unfold members_of. rewrite list_elem_of_filter, list_elem_of_fmap.
  split.
  - intros [Hb [[k m'] [-> Hin]]]. apply elem_of_map_to_list in Hin. eauto.
  - intros [[k Hk] Hb]. split; [done|].
    exists (k, m). split; [done|]. by apply elem_of_map_to_list.
Qed.

(** The inlined access expression is the owner-or-member relation. *)
Lemma hasAccess_spec s boardId b u :
  hasAccess (b, members_of s boardId) u = true <->
  b_ownerId b = u \/ is_member s boardId u.
Proof.
  unfold hasAccess, is_member. cbn [fst snd].
  rewrite orb_true_iff, bool_decide_eq_true, existsb_exists.
  split; (intros [Ho | Hm]; [by left | right]).
  - destruct Hm as (m & Hin & Hu). apply bool_decide_eq_true in Hu.
    apply list_elem_of_In, elem_of_members_of in Hin as [[k Hk] Hb]. eauto.
  - destruct Hm as (k & m & Hk & Hb & Hu). exists m. split.
    + apply list_elem_of_In, elem_of_members_of. eauto.
    + by apply bool_decide_eq_true.
Qed.

(** Case analysis on what a hypothesis inspects. *)
Ltac split_hyp H :=
  repeat match type of H with
         | context [match ?x with _ => _ end] =>
             let y := innermost x in destruct y eqn:?; simplify_eq/=
         end.

Ltac in_checked H :=
  unfold checked_boards, payload_ok, accepted_title, first_id, reorder_pairs,
    move_args, board_of_card, board_of_list, mbind, option_bind in H;
  cbn [option_list] in H; split_hyp H;
  cbn [option_list] in H; set_unfold; destruct_or?; simplify_eq/=.

Ltac bool_crush :=
  repeat match goal with
         | H : _ && _ = true |- _ => apply andb_true_iff in H as [? ?]
         | H : _ || _ = true |- _ => apply orb_true_iff in H as [?|?]
         | H : _ || _ = false |- _ => apply orb_false_iff in H as [? ?]
         | H : negb _ = true |- _ => apply negb_true_iff in H
         | H : negb _ = false |- _ => apply negb_false_iff in H
         end;
  congruence.

Lemma denied_403 userId u r s boardId b :
  authenticated userId = Some u ->
  boardId ∈ checked_boards s r ->
  boards s !! boardId = Some b ->
  hasAccess (b, members_of s boardId) u = false ->
  status (handle userId r s).1 = 403.
Proof.
  intros Hu Hin Hb Hacc.
  assert (Hown : bool_decide (b_ownerId b = u) = false).
  { unfold hasAccess in Hacc. by apply orb_false_iff in Hacc as [? _]. }
  destruct r; in_checked Hin.
  all: try done.
  all: prisma_run.
  all: try (rewrite ?Hacc, ?Hown in *; done).
  all: try (destruct body; done).
  all: try bool_crush.
Qed.

Ltac rewrite_known :=
  repeat match goal with
         | H : ?x = _ |- context [?x] => rewrite H
         end.

Lemma prop_has_body body k v : prop body k = Value v -> has_body body = true.
Proof. by destruct body. Qed.

Ltac checked_now :=
  unfold checked_boards, payload_ok, accepted_title, first_id, reorder_pairs,
    move_args, board_of_card, board_of_list, mbind, option_bind;
  try match goal with
      | H : prop ?b _ = Value _ |- context [has_body ?b] =>
          rewrite (prop_has_body _ _ _ H)
      end;
  rewrite_known; cbn; rewrite_known; cbn; set_solver.

Lemma granted_not_403 userId u r s :
  authenticated userId = Some u ->
  owner_only r = false ->
  (forall boardId b, boardId ∈ checked_boards s r -> boards s !! boardId = Some b ->
                     hasAccess (b, members_of s boardId) u = true) ->
  status (handle userId r s).1 <> 403.
Proof.
  intros Hu Hown Hall.
  destruct r; try discriminate Hown; prisma_run.
  all: match goal with
       | Hn : negb (hasAccess (?b, members_of ?s' ?X) ?u') = true |- _ =>
           assert (hasAccess (b, members_of s' X) u' = true) as Ht;
           [ apply Hall; [checked_now | done] | rewrite Ht in Hn; done ]
       end.
Qed.

Lemma owner_only_403 userId u r s boardId b :
  authenticated userId = Some u ->
  owner_only r = true ->
  boardId ∈ checked_boards s r ->
  boards s !! boardId = Some b ->
  status (handle userId r s).1 = 403 <-> b_ownerId b <> u.
Proof.
  intros Hu Hown Hin Hb.
  destruct r; try discriminate Hown; in_checked Hin; try done.
  all: prisma_run.
  all: try match goal with
           | H : negb (bool_decide _) = _ |- _ =>
               first [ apply negb_true_iff, bool_decide_eq_false in H
                     | apply negb_false_iff, bool_decide_eq_true in H ]
           end.
  all: split; intros; done.
Qed.

(** ** The access check (C1) *)

(** C1, as amended.  For an authenticated user [u] and an existing board
    [b] on which the handler of a request evaluates its access check:
    - the check of every handler except [updateBoard] and [deleteBoard] is
      [hasAccess], which holds iff [u] is the owner of [b] or a member row
      of [b] carries [u];
    - when [hasAccess] fails the response is 403 and nothing is committed,
      in every handler;
    - when [hasAccess] holds on every board the handler checks, a handler
      other than [updateBoard] and [deleteBoard] does not answer 403;
    - [updateBoard] and [deleteBoard] answer 403 iff [u] is not the owner,
      member or not. *)
Theorem access_check_decides userId u r s boardId b :
  authenticated userId = Some u ->
  boardId ∈ checked_boards s r ->
  boards s !! boardId = Some b ->
  (hasAccess (b, members_of s boardId) u = true <->
     b_ownerId b = u \/ is_member s boardId u)
  /\ (hasAccess (b, members_of s boardId) u = false ->
        status (handle userId r s).1 = 403
        /\ (handle userId r s).2 = unchanged s)
  /\ (owner_only r = false ->
        (forall boardId' b', boardId' ∈ checked_boards s r ->
                             boards s !! boardId' = Some b' ->
                             hasAccess (b', members_of s boardId') u = true) ->
        status (handle userId r s).1 <> 403)
  /\ (owner_only r = true ->
        (status (handle userId r s).1 = 403 <-> b_ownerId b <> u)).
Proof.
  intros Hu Hin Hb. split; [apply hasAccess_spec|].
  split; [|split].
  - intros Hacc. pose proof (denied_403 _ _ _ _ _ _ Hu Hin Hb Hacc) as H403.
    split; [done|]. apply handle_failure_unchanged; rewrite H403; done.
  - intros Hown Hall. by eapply granted_not_403.
  - intros Hown. by eapply owner_only_403.
Qed.

(** ** Ownership of a board (C2) *)


(** ** The reorder batch (C4, C9) *)

Lemma list_update_order_Some i o s l s' :
  list_update_order i o s = Some (l, s') ->
  exists j z l0, i = JStr j /\ int_of o = Some z /\ order_ok z = true
                 /\ lists s !! j = Some l0
                 /\ l = with_order (Some z) l0
                 /\ s' = set_lists <[j := l]> s.
Proof.
  unfold list_update_order. intros H.
  destruct i as [| | | | |j| | |]; try discriminate.
  destruct (int_of o) as [z|]; [|discriminate].
  destruct (lists s !! j) as [l0|] eqn:Hl; [|discriminate].
  destruct (order_ok z) eqn:Hz; [|discriminate].
  injection H as <- <-. by exists j, z, l0.
Qed.

(** Whether an update fails depends on the ids present only, and no update
    adds or removes an id. *)
Lemma list_update_order_None_dom i o s s' :
  (forall j, is_Some (lists s' !! j) <-> is_Some (lists s !! j)) ->
  list_update_order i o s' = None <-> list_update_order i o s = None.
Proof.
  intros Hdom. unfold list_update_order.
  destruct i as [| | | | |j| | |]; try done.
  destruct (int_of o) as [z|]; try done.
  specialize (Hdom j).
  destruct (lists s !! j) eqn:H1, (lists s' !! j) eqn:H2.
  - by destruct (order_ok z).
  - destruct (proj2 Hdom) as [x Hx]; [by eexists | discriminate].
  - destruct (proj1 Hdom) as [x Hx]; [by eexists | discriminate].
  - done.
Qed.

Lemma run_batch_reorder pairs : forall s r s',
  run_batch ((fun p => list_update_order p.1 p.2) <$> pairs) s = Some (r, s') ->
  boards s' = boards s /\ members s' = members s /\ cards s' = cards s
  /\ forall j, lists s' !! j = with_order (assigned j pairs) <$> lists s !! j.
Proof.
  induction pairs as [|[i o] pairs IH]; intros s r s' Hrun.
  - injection Hrun as <- <-. repeat split. intros j. cbn.
    by destruct (lists s !! j).
  - cbn in Hrun.
    destruct (list_update_order i o s) as [[l s1]|] eqn:Hhead; [|discriminate].
    destruct (run_batch _ s1) as [[r' s2]|] eqn:Htail; [|discriminate].
    injection Hrun as <- <-.
    apply list_update_order_Some in Hhead
      as (j0 & z & l0 & -> & Ho & Hz & Hl0 & -> & ->).
    apply IH in Htail as (Hb & Hm & Hc & Hl). cbn in *.
    repeat split; try done.
    intros j. rewrite Hl. cbn.
    destruct (decide (j0 = j)) as [->|Hne].
    + rewrite lookup_insert_eq, Hl0, bool_decide_eq_true_2, Ho by done. cbn.
      by destruct (assigned j pairs).
    + rewrite lookup_insert_ne, bool_decide_eq_false_2 by done.
      by destruct (assigned j pairs).
Qed.

Lemma run_batch_reorder_None pairs : forall s,
  run_batch ((fun p => list_update_order p.1 p.2) <$> pairs) s = None <->
  exists p, p ∈ pairs /\ list_update_order p.1 p.2 s = None.
Proof.
  induction pairs as [|[i o] pairs IH]; intros s.
  - cbn. split; [done|]. intros (p & Hp & _). by apply elem_of_nil in Hp.
  - cbn. destruct (list_update_order i o s) as [[l s1]|] eqn:Hhead.
    + assert (Hdom : forall j, is_Some (lists s1 !! j) <-> is_Some (lists s !! j)).
      { intros j. pose proof (run_batch_reorder [(i, o)] s [l] s1) as H.
        cbn in H. rewrite Hhead in H. destruct (H eq_refl) as (_ & _ & _ & ->).
        by rewrite fmap_is_Some. }
      destruct (run_batch _ s1) as [[r' s2]|] eqn:Htail.
      * split; [done|]. intros (p & Hp & Hnone).
        apply elem_of_cons in Hp as [->|Hp]; [cbn in Hnone; congruence|].
        assert (run_batch ((fun p => list_update_order p.1 p.2) <$> pairs) s1 = None)
          as Hcontra; [|congruence].
        apply IH. exists p. split; [done|].
        by apply (list_update_order_None_dom _ _ s s1).
      * split; [|done]. intros _. apply IH in Htail as (p & Hp & Hnone).
        exists p. split; [by apply elem_of_cons; right|].
        by apply (list_update_order_None_dom _ _ s s1).
    + split; [|done]. intros _. exists (i, o). split; [apply elem_of_cons; by left|done].
Qed.

Lemma assigned_elem_of j pairs o :
  assigned j pairs = Some o ->
  exists v, (JStr j, v) ∈ pairs /\ int_of v = Some o.
Proof.
  induction pairs as [|[i v] pairs IH]; [done|]. cbn.
  assert (Hrest : assigned j pairs = Some o ->
                  exists v', (JStr j, v') ∈ (i, v) :: pairs /\ int_of v' = Some o).
  { intros H. destruct (IH H) as (v' & Hin & Hv'). exists v'.
    split; [apply elem_of_cons; by right | done]. }
  destruct i as [| | | | |i| | |]; try done.
  destruct (assigned j pairs) as [o'|]; [done|].
  case_bool_decide; [|done]. intros Hv. subst. exists v.
  split; [apply elem_of_cons; by left | done].
Qed.

Lemma assigned_None j pairs :
  (forall o, (JStr j, o) ∉ pairs) -> assigned j pairs = None.
Proof.
  intros Hfree. destruct (assigned j pairs) as [o|] eqn:H; [|done].
  apply assigned_elem_of in H as (v & Hin & _). by apply Hfree in Hin.
Qed.


(** An authorized reorder request is its batch, committed once or not at
    all. *)
Lemma reorderLists_authorized userId u s body pairs i boardId b :
  authenticated userId = Some u ->
  reorder_pairs body = Some pairs ->
  first_id body = Some i ->
  board_of_list s i = Some boardId ->
  boards s !! boardId = Some b ->
  hasAccess (b, members_of s boardId) u = true ->
  handle userId (ReorderLists body) s =
  match run_batch ((fun p => list_update_order p.1 p.2) <$> pairs) s with
  | Some (_, s') =>
      ({| status := 200; message := "Lists reordered successfully";
          payload := NoPayload |}, {| now := s'; past := [s] |})
  | None =>
      ({| status := 500; message := "Server error"; payload := NoPayload |},
       unchanged s)
  end.
Proof.
  intros Hu Hpairs Hfirst Hboard Hb Hacc.
  unfold first_id in Hfirst. rewrite Hpairs in Hfirst.
  unfold reorder_pairs, board_of_list, mbind, option_bind in *.
  split_hyp Hpairs. split_hyp Hfirst. split_hyp Hboard.
  unfold unchanged. prisma_run. all: by rewrite Hacc in *.
Qed.

Lemma reorderLists_200 userId s body :
  status (handle userId (ReorderLists body) s).1 = 200 ->
  exists pairs r s',
    reorder_pairs body = Some pairs
    /\ run_batch ((fun p => list_update_order p.1 p.2) <$> pairs) s = Some (r, s')
    /\ (handle userId (ReorderLists body) s).2 = {| now := s'; past := [s] |}.
Proof.
  unfold reorder_pairs, mbind, option_bind. prisma_run.
  intros _. eexists _, _, _. split; [done|]. split; [|done].
  cbn. rewrite_known. cbn. by rewrite_known.
Qed.


(** C9.  A reorder request answered 200 leaves the board, member and card
    tables as they were and changes no list but in its [order]: every
    stored list keeps its title and its board, a list the payload does not
    name is unchanged altogether, and no list appears or disappears. *)
Theorem reorderLists_frame userId s body :
  status (handle userId (ReorderLists body) s).1 = 200 ->
  exists pairs,
    reorder_pairs body = Some pairs
    /\ boards (now (handle userId (ReorderLists body) s).2) = boards s
    /\ members (now (handle userId (ReorderLists body) s).2) = members s
    /\ cards (now (handle userId (ReorderLists body) s).2) = cards s
    /\ forall j,
        match lists s !! j with
        | Some l =>
            exists l', lists (now (handle userId (ReorderLists body) s).2) !! j = Some l'
                       /\ l_title l' = l_title l
                       /\ l_boardId l' = l_boardId l
                       /\ ((forall o, (JStr j, o) ∉ pairs) -> l' = l)
        | None => lists (now (handle userId (ReorderLists body) s).2) !! j = None
        end.
Proof.
  intros H200. apply reorderLists_200 in H200 as (pairs & r & s' & Hpairs & Hrun & ->).
  apply run_batch_reorder in Hrun as (Hb & Hm & Hc & Hl).
  exists pairs. cbn. repeat split; try done.
  intros j. rewrite Hl. destruct (lists s !! j) as [l|]; [|done].
  exists (with_order (assigned j pairs) l). cbn.
  repeat split; try by destruct (assigned j pairs).
  intros Hfree. by rewrite (assigned_None _ _ Hfree).
Qed.

(** ** The order of a new list or card (C7) *)

Lemma first_desc_None orders : first_desc orders = None <-> orders = [].
Proof. by destruct orders. Qed.

Lemma first_desc_Some orders m :
  first_desc orders = Some m ->
  m ∈ orders /\ forall x, x ∈ orders -> x <= m.
Proof.
  revert m. induction orders as [|o orders IH]; intros m; [done|].
  unfold first_desc. cbn [foldr]. fold (first_desc orders).
  destruct (first_desc orders) as [m'|] eqn:Hm'.
  - intros [= <-]. destruct (IH m' eq_refl) as [Hin Hmax]. split.
    + destruct (Z.max_spec o m') as [[_ ->]|[_ ->]];
        [by apply elem_of_cons; right | by apply elem_of_cons; left].
    + intros x [->|Hx]%elem_of_cons; [lia|]. specialize (Hmax x Hx). lia.
  - intros [= <-]. apply first_desc_None in Hm' as ->. split.
    + apply elem_of_cons; by left.
    + intros x [->|Hx]%elem_of_cons; [lia | by apply elem_of_nil in Hx].
Qed.

Lemma elem_of_list_orders s boardId x :
  x ∈ list_orders s boardId <->
  exists k l, lists s !! k = Some l /\ l_boardId l = boardId /\ l_order l = x.
Proof.
  unfold list_orders. rewrite list_elem_of_fmap. split.
  - intros (l & -> & Hl). apply list_elem_of_filter in Hl as [Hb Hl].
    apply list_elem_of_fmap in Hl as ([k l'] & -> & Hl).
    apply elem_of_map_to_list in Hl. eauto.
  - intros (k & l & Hl & Hb & Hx). exists l. split; [done|].
    apply list_elem_of_filter. split; [done|].
    apply list_elem_of_fmap. exists (k, l). split; [done|].
    by apply elem_of_map_to_list.
Qed.

Lemma elem_of_card_orders s listId x :
  x ∈ card_orders s listId <->
  exists k c, cards s !! k = Some c /\ c_listId c = listId /\ c_order c = x.
Proof.
  unfold card_orders. rewrite list_elem_of_fmap. split.
  - intros (c & -> & Hc). apply list_elem_of_filter in Hc as [Hb Hc].
    apply list_elem_of_fmap in Hc as ([k c'] & -> & Hc).
    apply elem_of_map_to_list in Hc. eauto.
  - intros (k & c & Hc & Hb & Hx). exists c. split; [done|].
    apply list_elem_of_filter. split; [done|].
    apply list_elem_of_fmap. exists (k, c). split; [done|].
    by apply elem_of_map_to_list.
Qed.

(** [nextOrder] of the greatest order: above every sibling, 0 without
    siblings, and one more than some sibling otherwise. *)
Lemma nextOrder_first_desc orders :
  (forall x, x ∈ orders -> x < nextOrder (first_desc orders))
  /\ (orders = [] -> nextOrder (first_desc orders) = 0)
  /\ (orders <> [] -> exists x, x ∈ orders /\ nextOrder (first_desc orders) = x + 1).
Proof.
  destruct (first_desc orders) as [m|] eqn:Hm.
  - destruct (first_desc_Some _ _ Hm) as [Hin Hmax]. cbn. repeat split.
    + intros x Hx. specialize (Hmax x Hx). lia.
    + intros ->. by apply elem_of_nil in Hin.
    + intros _. eauto.
  - apply first_desc_None in Hm as ->. cbn. repeat split; try done.
    intros x Hx. by apply elem_of_nil in Hx.
Qed.

Lemma createList_201 userId boardId body newId s :
  status (handle userId (CreateList boardId body newId) s).1 = 201 ->
  exists t,
    let l := {| l_title := t; l_order := nextOrder (first_desc (list_orders s boardId));
                l_boardId := boardId |} in
    lists s !! newId = None
    /\ payload (handle userId (CreateList boardId body newId) s).1 = ListP newId l
    /\ (handle userId (CreateList boardId body newId) s).2
       = {| now := set_lists <[newId := l]> s; past := [s] |}.
Proof.
  prisma_run_queries. intros _. eauto.
Qed.

Lemma createCard_201 userId listId body newId s :
  status (handle userId (CreateCard listId body newId) s).1 = 201 ->
  exists c,
    c_order c = nextOrder (first_desc (card_orders s listId))
    /\ c_listId c = listId
    /\ cards s !! newId = None
    /\ payload (handle userId (CreateCard listId body newId) s).1 = CardP newId c
    /\ (handle userId (CreateCard listId body newId) s).2
       = {| now := set_cards <[newId := c]> s; past := [s] |}.
Proof.
  prisma_run_queries. all: intros _; eexists; repeat split; done.
Qed.

(** When the creations succeed. *)
Lemma createList_succeeds userId u boardId b body newId s :
  authenticated userId = Some u ->
  accepted_title body = true ->
  boards s !! boardId = Some b ->
  hasAccess (b, members_of s boardId) u = true ->
  lists s !! newId = None ->
  order_ok (nextOrder (first_desc (list_orders s boardId))) = true ->
  status (handle userId (CreateList boardId body newId) s).1 = 201.
Proof.
  intros Hu Ht Hb Hacc Hfresh Hord.
  unfold accepted_title in Ht. split_hyp Ht;
    prisma_run_queries; by rewrite ?Hacc in *.
Qed.

Lemma createCard_succeeds userId u listId boardId b body newId s :
  authenticated userId = Some u ->
  accepted_title body = true ->
  card_fields_ok body = true ->
  board_of_list s listId = Some boardId ->
  boards s !! boardId = Some b ->
  hasAccess (b, members_of s boardId) u = true ->
  cards s !! newId = None ->
  order_ok (nextOrder (first_desc (card_orders s listId))) = true ->
  status (handle userId (CreateCard listId body newId) s).1 = 201.
Proof.
  intros Hu Ht Hf Hl Hb Hacc Hfresh Hord.
  unfold accepted_title, card_fields_ok, board_of_list, mbind, option_bind in *.
  split_hyp Ht; split_hyp Hf; split_hyp Hl;
    try (apply andb_true_iff in Hf as [[labels Hlabels]%bool_decide_eq_true Hf]);
    prisma_run_queries; by rewrite ?Hacc, ?Hord, ?Hf in *.
Qed.

(** C7.  A [createList] answered 201 stores the new list, in the given
    board, with an order that exceeds the order of every list the board had,
    is 0 when the board had none, and otherwise is the order of one of them
    plus 1: the greatest plus 1.  The same holds of [createCard] and the
    cards of the given list.  And the requests do succeed: [createList] is
    answered 201 when the user is authenticated and has access to the
    board, the title is accepted, the id is new and the column takes the
    next order; [createCard] likewise, when moreover the optional fields of
    the body are acceptable. *)
Theorem created_order_is_next userId s newId body :
  (forall boardId,
      status (handle userId (CreateList boardId body newId) s).1 = 201 ->
      exists l,
        lists (now (handle userId (CreateList boardId body newId) s).2) !! newId = Some l
        /\ payload (handle userId (CreateList boardId body newId) s).1 = ListP newId l
        /\ l_boardId l = boardId
        /\ (forall k l', lists s !! k = Some l' -> l_boardId l' = boardId ->
                         l_order l' < l_order l)
        /\ ((forall k l', lists s !! k = Some l' -> l_boardId l' <> boardId) ->
              l_order l = 0)
        /\ ((exists k l', lists s !! k = Some l' /\ l_boardId l' = boardId) ->
              exists k l', lists s !! k = Some l' /\ l_boardId l' = boardId
                           /\ l_order l = l_order l' + 1))
  /\ (forall listId,
        status (handle userId (CreateCard listId body newId) s).1 = 201 ->
        exists c,
          cards (now (handle userId (CreateCard listId body newId) s).2) !! newId = Some c
          /\ payload (handle userId (CreateCard listId body newId) s).1 = CardP newId c
          /\ c_listId c = listId
          /\ (forall k c', cards s !! k = Some c' -> c_listId c' = listId ->
                           c_order c' < c_order c)
          /\ ((forall k c', cards s !! k = Some c' -> c_listId c' <> listId) ->
                c_order c = 0)
          /\ ((exists k c', cards s !! k = Some c' /\ c_listId c' = listId) ->
                exists k c', cards s !! k = Some c' /\ c_listId c' = listId
                             /\ c_order c = c_order c' + 1))
  /\ (forall u boardId b,
        authenticated userId = Some u ->
        accepted_title body = true ->
        boards s !! boardId = Some b ->
        hasAccess (b, members_of s boardId) u = true ->
        lists s !! newId = None ->
        order_ok (nextOrder (first_desc (list_orders s boardId))) = true ->
        status (handle userId (CreateList boardId body newId) s).1 = 201)
  /\ (forall u listId boardId b,
        authenticated userId = Some u ->
        accepted_title body = true ->
        card_fields_ok body = true ->
        board_of_list s listId = Some boardId ->
        boards s !! boardId = Some b ->
        hasAccess (b, members_of s boardId) u = true ->
        cards s !! newId = None ->
        order_ok (nextOrder (first_desc (card_orders s listId))) = true ->
        status (handle userId (CreateCard listId body newId) s).1 = 201).
Proof.
  split; [|split; [|split]]; cycle 2.
  { intros u boardId b. apply createList_succeeds. }
  { intros u listId boardId b. apply createCard_succeeds. }
  - intros boardId H201.
    destruct (createList_201 _ _ _ _ _ H201) as (t & Hfresh & Hpay & ->).
    destruct (nextOrder_first_desc (list_orders s boardId)) as (Habove & Hzero & Hnext).
    eexists. split; [apply lookup_insert_eq|]. split; [exact Hpay|]. cbn.
    split; [done|]. split; [|split].
    + intros k l' Hk Hb. apply Habove, elem_of_list_orders. eauto.
    + intros Hnone. apply Hzero.
      destruct (list_orders s boardId) as [|x xs] eqn:Hxs; [done|].
      assert (x ∈ list_orders s boardId) as Hx by (rewrite Hxs; apply elem_of_cons; by left).
      apply elem_of_list_orders in Hx as (k & l' & Hk & Hb & _).
      by destruct (Hnone k l' Hk).
    + intros (k & l' & Hk & Hb). destruct Hnext as (x & Hx & ->).
      * intros Hnil.
        assert (l_order l' ∈ list_orders s boardId) as Hin
          by (apply elem_of_list_orders; eauto).
        rewrite Hnil in Hin. by apply elem_of_nil in Hin.
      * apply elem_of_list_orders in Hx as (k' & l'' & Hk' & Hb' & <-). eauto.
  - intros listId H201.
    destruct (createCard_201 _ _ _ _ _ H201) as (c & Horder & Hlist & Hfresh & Hpay & ->).
    destruct (nextOrder_first_desc (card_orders s listId)) as (Habove & Hzero & Hnext).
    exists c. split; [apply lookup_insert_eq|]. split; [exact Hpay|].
    split; [done|]. rewrite Horder. split; [|split].
    + intros k c' Hk Hb. apply Habove, elem_of_card_orders. eauto.
    + intros Hnone. apply Hzero.
      destruct (card_orders s listId) as [|x xs] eqn:Hxs; [done|].
      assert (x ∈ card_orders s listId) as Hx by (rewrite Hxs; apply elem_of_cons; by left).
      apply elem_of_card_orders in Hx as (k & c' & Hk & Hb & _).
      by destruct (Hnone k c' Hk).
    + intros (k & c' & Hk & Hb). destruct Hnext as (x & Hx & ->).
      * intros Hnil.
        assert (c_order c' ∈ card_orders s listId) as Hin
          by (apply elem_of_card_orders; eauto).
        rewrite Hnil in Hin. by apply elem_of_nil in Hin.
      * apply elem_of_card_orders in Hx as (k' & c'' & Hk' & Hb' & <-). eauto.
Qed.

(** ** Moving a card (C5, C6) *)

Lemma moveCard_200 userId id body s :
  status (handle userId (MoveCard id body) s).1 = 200 ->
  exists u c l v z source src target tgt,
    authenticated userId = Some u
    /\ move_args body = Some (JStr l, v)
    /\ int_of v = Some z
    /\ cards s !! id = Some c
    /\ board_of_card s id = Some source
    /\ boards s !! source = Some src
    /\ hasAccess (src, members_of s source) u = true
    /\ board_of_list s l = Some target
    /\ boards s !! target = Some tgt
    /\ hasAccess (tgt, members_of s target) u = true
    /\ order_ok z = true
    /\ (handle userId (MoveCard id body) s).2
       = {| now := set_cards <[id := moved c l z]> s; past := [s] |}.
Proof.
  prisma_run_queries.
  all: try (exfalso; bool_crush).
  all: intros _; eexists _, _, _, _, _, _, _, _, _.
  all: unfold move_args, board_of_card, board_of_list, mbind, option_bind.
  all: rewrite_known; cbn; rewrite_known; cbn.
  all: repeat match goal with
              | H : negb _ = false |- _ => apply negb_false_iff in H
              end.
  all: repeat split; try done; try eassumption.
  all: by rewrite_known.
Qed.


(** C6, as amended.  For an authenticated request to move an existing card
    whose body carries a number as [order] and a non-empty string as
    [listId]:
    - it is answered 200 only when the user has access to the card's
      current board and the target list exists on a board the user has
      access to;
    - when the user has no access to the card's current board it is
      answered 403, whether the target list exists or not;
    - when the user has that access and the target list does not exist it
      is answered 404;
    - when the user has that access and none to the target list's board it
      is answered 403;
    and in each of the three refusals nothing is committed. *)
Theorem moveCard_outcomes userId u s id body listId order source src :
  authenticated userId = Some u ->
  move_args body = Some (JStr listId, order) ->
  board_of_card s id = Some source ->
  boards s !! source = Some src ->
  (status (handle userId (MoveCard id body) s).1 = 200 ->
     hasAccess (src, members_of s source) u = true
     /\ exists target tgt,
         board_of_list s listId = Some target
         /\ boards s !! target = Some tgt
         /\ hasAccess (tgt, members_of s target) u = true)
  /\ (hasAccess (src, members_of s source) u = false ->
       status (handle userId (MoveCard id body) s).1 = 403
       /\ (handle userId (MoveCard id body) s).2 = unchanged s)
  /\ (hasAccess (src, members_of s source) u = true ->
       lists s !! listId = None ->
       status (handle userId (MoveCard id body) s).1 = 404
       /\ (handle userId (MoveCard id body) s).2 = unchanged s)
  /\ (hasAccess (src, members_of s source) u = true ->
       forall target tgt,
         board_of_list s listId = Some target ->
         boards s !! target = Some tgt ->
         hasAccess (tgt, members_of s target) u = false ->
         status (handle userId (MoveCard id body) s).1 = 403
         /\ (handle userId (MoveCard id body) s).2 = unchanged s).
Proof.
  intros Hu Hargs Hsource Hsrc.
  assert (Hquiet : forall code, code <> 200 -> code <> 201 ->
             status (handle userId (MoveCard id body) s).1 = code ->
             status (handle userId (MoveCard id body) s).1 = code
             /\ (handle userId (MoveCard id body) s).2 = unchanged s).
  { intros code H200 H201 Hcode. split; [done|].
    apply handle_failure_unchanged; by rewrite Hcode. }
  split; [|split; [|split]].
  - intros H. apply moveCard_200 in H
      as (u' & c & l & v & z & source' & src' & target & tgt & Hu' & Hargs' & _ & _
          & Hsource' & Hsrc' & Hacc & Htarget & Htgt & Hacc' & _).
    simplify_eq. eauto 10.
  - intros Hacc. apply Hquiet; [done..|].
    unfold move_args, board_of_card, board_of_list, mbind, option_bind in *.
    split_hyp Hargs. split_hyp Hsource.
    prisma_run. all: by rewrite Hacc in *.
  - intros Hacc Hnone. apply Hquiet; [done..|].
    unfold move_args, board_of_card, board_of_list, mbind, option_bind in *.
    split_hyp Hargs. split_hyp Hsource.
    prisma_run. all: by rewrite Hacc in *.
  - intros Hacc target tgt Htarget Htgt Hacc'. apply Hquiet; [done..|].
    unfold move_args, board_of_card, board_of_list, mbind, option_bind in *.
    split_hyp Hargs. split_hyp Hsource. split_hyp Htarget.
    prisma_run. all: by rewrite ?Hacc, ?Hacc' in *.
Qed.

(** ** A target that does not exist (C8) *)

Ltac target_gone H :=
  unfold target_missing, first_id, reorder_pairs, mbind, option_bind in H;
  split_hyp H;
  repeat match goal with
         | H' : bool_decide _ = true |- _ => apply bool_decide_eq_true in H'
         end.

Lemma missing_target_status userId u r s :
  authenticated userId = Some u ->
  target_missing s r = true ->
  (payload_ok r = true -> status (handle userId r s).1 = 404)
  /\ (payload_ok r = false ->
       status (handle userId r s).1 = 400 \/ status (handle userId r s).1 = 500).
Proof.
  intros Hu Hgone.
  destruct r; try discriminate Hgone; target_gone Hgone.
  all: unfold payload_ok, accepted_title, first_id, reorder_pairs, move_args,
         has_body, mbind, option_bind.
  all: prisma_run.
  all: try (split; intros; solve [done | auto]).
  all: by destruct body.
Qed.

(** The answer to a request whose target is missing depends neither on who
    asks nor on the member table. *)
Lemma missing_target_blind userId u userId' u' ms r s :
  authenticated userId = Some u ->
  authenticated userId' = Some u' ->
  target_missing s r = true ->
  (handle userId' r (with_members ms s)).1 = (handle userId r s).1.
Proof.
  intros Hu Hu' Hgone.
  destruct r; try discriminate Hgone; target_gone Hgone.
  all: unfold with_members; prisma_unfold; cbn [boards lists cards members].
  all: repeat (prisma_step; try done).
Qed.


(** C8, as amended.  When the entity a handler loads first (the board, list
    or card of the route, or the first list of a reorder payload) does not
    exist, an authenticated request is answered 404 provided it passes the
    validation its handler performs before loading; a request that does not
    is answered 400 (500 when validation throws).  In either case the answer
    is never 403, nothing is committed, and no access check is evaluated:
    the response is the same for every authenticated user and every member
    table. *)
Theorem missing_target_not_found userId u r s :
  authenticated userId = Some u ->
  target_missing s r = true ->
  status (handle userId r s).1 <> 403
  /\ (handle userId r s).2 = unchanged s
  /\ (payload_ok r = true -> status (handle userId r s).1 = 404)
  /\ (payload_ok r = false ->
       status (handle userId r s).1 = 400 \/ status (handle userId r s).1 = 500)
  /\ (forall userId' u' ms,
         authenticated userId' = Some u' ->
         (handle userId' r (with_members ms s)).1 = (handle userId r s).1).
Proof.
  intros Hu Hgone.
  destruct (missing_target_status _ _ _ _ Hu Hgone) as [Hok Hbad].
  assert (Hcode : status (handle userId r s).1 = 404
                  \/ status (handle userId r s).1 = 400
                  \/ status (handle userId r s).1 = 500).
  { destruct (payload_ok r); [left; auto | right; auto]. }
  split; [|split; [|split; [|split]]]; try done.
  - destruct Hcode as [-> | [-> | ->]]; done.
  - apply handle_failure_unchanged; destruct Hcode as [-> | [-> | ->]]; done.
  - intros userId' u' ms Hu'. by eapply missing_target_blind.
Qed.

(** ** Partial update of a card (C10) *)

Lemma insert_card_id s id c :
  cards s !! id = Some c -> set_cards <[id := c]> s = s.
Proof.
  intros H. destruct s as [bs ms ls cs]. unfold set_cards. cbn in *.
  by rewrite insert_id.
Qed.

(** C10.  [updateCard] leaves unchanged each of [title], [description],
    [labels] and [dueDate] that is absent from the body, never touches
    [order] and [listId], and touches no other card; with all four absent
    (an empty body) the stored card, and the whole store, are as before. *)
Theorem updateCard_partial userId s id body c :
  cards s !! id = Some c ->
  exists c',
    cards (now (handle userId (UpdateCard id body) s).2) !! id = Some c'
    /\ (prop body "title" = Value JUndefined -> c_title c' = c_title c)
    /\ (prop body "description" = Value JUndefined ->
         c_description c' = c_description c)
    /\ (prop body "labels" = Value JUndefined -> c_labels c' = c_labels c)
    /\ (prop body "dueDate" = Value JUndefined -> c_dueDate c' = c_dueDate c)
    /\ c_order c' = c_order c
    /\ c_listId c' = c_listId c
    /\ (forall k, k <> id ->
           cards (now (handle userId (UpdateCard id body) s).2) !! k = cards s !! k)
    /\ (prop body "title" = Value JUndefined ->
         prop body "description" = Value JUndefined ->
         prop body "labels" = Value JUndefined ->
         prop body "dueDate" = Value JUndefined ->
         c' = c /\ now (handle userId (UpdateCard id body) s).2 = s).
Proof.
  intros Hc.
  prisma_run_queries.
  all: try by (exists c; repeat split).
  all: eexists; (split; [apply lookup_insert_eq|]); cbn.
  all: repeat split.
  all: try (intros; simplify_eq/=; done).
  all: try (intros k Hk; by rewrite lookup_insert_ne).
  all: intros; simplify_eq/=.
  - by destruct c.
  - replace (mkCard _ _ _ _ _ _) with c by (by destruct c).
    by apply (insert_card_id s id c).
Qed.

(** ** Further properties of the handlers *)

Local Set Warnings "-clear-no-such-hyp".

(** The three reads commit nothing, whoever asks and whatever the store
    holds. *)
Lemma reads_commit_nothing userId s :
  (handle userId GetAllBoards s).2 = unchanged s
  /\ (forall id, (handle userId (GetBoardById id) s).2 = unchanged s)
  /\ (forall id, (handle userId (GetCard id) s).2 = unchanged s).
Proof.
  unfold unchanged. repeat split; intros; prisma_run.
Qed.

Lemma unauthenticated_unchanged userId r s :
  authenticated userId = None -> (handle userId r s).2 = unchanged s.
Proof.
  intros Hu. unfold unchanged. destruct r; prisma_run.
Qed.

(** Without a user id on the request nothing is committed; the answer is
    401, or 500 when the handler destructures a body that is not there. *)
Lemma unauthenticated_refused userId r s :
  authenticated userId = None ->
  (handle userId r s).2 = unchanged s
  /\ (status (handle userId r s).1 = 401
      \/ status (handle userId r s).1 = 500
         /\ exists body, body_of r = Some body /\ has_body body = false).
Proof.
  intros Hu. unfold unchanged.
  destruct r; prisma_run; split; try done; auto.
  all: right; split; [done|]; eexists; split; [reflexivity|].
  all: by destruct body.
Qed.

(** [getAllBoards] answers 200 with exactly the stored boards the user owns
    or is a member of, each once; these are the boards [getBoardById]
    opens to the same user. *)
Lemma getAllBoards_accessible userId u s :
  authenticated userId = Some u ->
  exists bs,
    (handle userId GetAllBoards s).1
    = {| status := 200; message := ""; payload := BoardsP bs |}
    /\ NoDup bs.*1
    /\ (forall id b, (id, b) ∈ bs <->
          boards s !! id = Some b /\ (b_ownerId b = u \/ is_member s id u))
    /\ (forall id, id ∈ bs.*1 <->
          status (handle userId (GetBoardById id) s).1 = 200).
Proof.
  intros Hu.
  assert (Hin : forall id b,
    (id, b) ∈ filter (fun p => hasAccess (p.2, members_of s p.1) u = true)
                     (map_to_list (boards s)) <->
    boards s !! id = Some b /\ (b_ownerId b = u \/ is_member s id u)).
  { intros id b. rewrite list_elem_of_filter, elem_of_map_to_list. cbn.
    rewrite hasAccess_spec. tauto. }
  eexists. split; [by prisma_run|]. split; [|split].
  - apply NoDup_fmap_fst.
    + intros k b1 b2 [_ H1]%list_elem_of_filter [_ H2]%list_elem_of_filter.
      apply elem_of_map_to_list in H1, H2. congruence.
    + apply NoDup_filter, NoDup_map_to_list.
  - exact Hin.
  - intros id. rewrite list_elem_of_fmap. split.
    + intros ([id' b] & -> & Hb). apply Hin in Hb as [Hb Hacc].
      apply (hasAccess_spec s id' b u) in Hacc. cbn.
      prisma_run. by rewrite Hacc in *.
    + intros H200. revert H200. prisma_run. intros _.
      match goal with
      | Hb : boards _ !! _ = Some ?b, Ha : negb (hasAccess _ _) = false |- _ =>
          exists (id, b); split; [done|]; apply Hin; split; [done|];
          apply hasAccess_spec; by apply negb_false_iff in Ha
      end.
Qed.

(** What [required_title] accepts: a string that is not blank, trimmed. *)
Lemma required_title_Accept v t' :
  required_title v = Accept t' ->
  exists t, v = JStr t /\ t' = trim t /\ trim t <> "".
Proof.
  unfold required_title. destruct (negb (truthy v)); [done|].
  destruct v as [| | | | |t| | |]; try done.
  case_bool_decide; [done|]. intros [= <-]. eauto.
Qed.

(** [createBoard] answered 201 has stored a board under the new id with the
    trimmed title and the caller as owner, and an owner member row for the
    caller; every other board, list and card is as before.  From then on
    the caller opens the board, and (when no stale member row pointed at
    the new id) nobody else does. *)
Lemma createBoard_grants_creator userId u body newId newMemberId s :
  authenticated userId = Some u ->
  status (handle userId (CreateBoard body newId newMemberId) s).1 = 201 ->
  exists t,
    prop body "title" = Value (JStr t)
    /\ trim t <> ""
    /\ boards s !! newId = None
    /\ now (handle userId (CreateBoard body newId newMemberId) s).2
       = {| boards := <[newId := mkBoard (trim t) u]> (boards s);
            members := <[newMemberId := mkMember newId u "owner"]> (members s);
            lists := lists s; cards := cards s |}
    /\ status (handle userId (GetBoardById newId)
                 (now (handle userId (CreateBoard body newId newMemberId) s).2)).1 = 200
    /\ ((forall k m, members s !! k = Some m -> m_boardId m <> newId) ->
        forall userId' u', authenticated userId' = Some u' -> u' <> u ->
          status (handle userId' (GetBoardById newId)
                    (now (handle userId (CreateBoard body newId newMemberId) s).2)).1
          = 403).
Proof.
  intros Hu H201.
  assert (exists t, prop body "title" = Value (JStr t) /\ trim t <> ""
            /\ boards s !! newId = None /\ members s !! newMemberId = None
            /\ now (handle userId (CreateBoard body newId newMemberId) s).2
               = {| boards := <[newId := mkBoard (trim t) u]> (boards s);
                    members := <[newMemberId := mkMember newId u "owner"]> (members s);
                    lists := lists s; cards := cards s |})
    as (t & Ht & Hne & Hfresh & Hmfresh & Hnow).
  { revert H201. prisma_run_queries. intros _.
    match goal with
    | H : required_title _ = Accept _ |- _ =>
        apply required_title_Accept in H as (t & -> & -> & Hne)
    end.
    by exists t. }
  exists t. rewrite Hnow. repeat split; try done.
  - prisma_unfold. rewrite Hu. cbn. rewrite lookup_insert_eq. cbn.
    assert (hasAccess (mkBoard (trim t) u, members_of
              {| boards := <[newId := mkBoard (trim t) u]> (boards s);
                 members := <[newMemberId := mkMember newId u "owner"]> (members s);
                 lists := lists s; cards := cards s |} newId) u = true) as ->; [|done].
    apply hasAccess_spec. by left.
  - intros Hstale userId' u' Hu' Hneq.
    prisma_unfold. rewrite Hu'. cbn. rewrite lookup_insert_eq. cbn.
    match goal with
    | |- context [hasAccess ?b u'] =>
        assert (hasAccess b u' = false) as ->; [|done]
    end.
    apply not_true_is_false. intros [Ho | (k & m & Hk & Hb & Hm)]%hasAccess_spec.
    + cbn in Ho. congruence.
    + cbn in Hk. apply lookup_insert_Some in Hk as [[_ <-] | [_ Hk]].
      * cbn in Hm. congruence.
      * by apply (Hstale k m).
Qed.

(** A user who is neither owner nor member of any board changes nothing,
    whatever is requested, except by creating a board. *)
Lemma outsider_changes_nothing userId u r s :
  authenticated userId = Some u ->
  no_access s u ->
  is_createBoard r = false ->
  (handle userId r s).2 = unchanged s.
Proof.
  intros Hu Hno Hr. unfold unchanged, no_access in *.
  assert (Hown : forall k b, boards s !! k = Some b ->
                             negb (bool_decide (b_ownerId b = u)) = true).
  { intros k b Hb. specialize (Hno k b Hb). unfold hasAccess in Hno.
    apply orb_false_iff in Hno as [Hno _]. cbn in Hno. by rewrite Hno. }
  destruct r; try discriminate Hr; prisma_run.
  all: try match goal with
       | Hb : boards _ !! ?k = Some ?b, Ha : negb (hasAccess (?b, _) _) = false |- _ =>
           rewrite (Hno k b Hb) in Ha; discriminate
       | Hb : boards _ !! ?k = Some ?b, Ha : negb (bool_decide (b_ownerId ?b = _)) = false |- _ =>
           rewrite (Hown k b Hb) in Ha; discriminate
       end.
Qed.

(** *** Trimming *)

Lemma strip_clean w2 w3 s : clean w2 w3 s = true -> strip w2 w3 s = s.
Proof.
  destruct s as [|a [|b [|c s]]]; cbn [clean strip]; try done.
  - by destruct (is_ws a).
  - destruct (is_ws a); [done|]. by destruct (w2 a b).
  - destruct (is_ws a); [done|]. destruct (w2 a b); [done|].
    by destruct (w3 a b c).
Qed.

(** [strip] takes a prefix away and leaves nothing it would take. *)
Lemma strip_spec w2 w3 s :
  clean w2 w3 (strip w2 w3 s) = true
  /\ exists w, s = (w ++ strip w2 w3 s)%list.
Proof.
  assert (H : forall n s, (length s <= n)%nat ->
                clean w2 w3 (strip w2 w3 s) = true
                /\ exists w, s = (w ++ strip w2 w3 s)%list).
  { clear s. induction n as [|n IH]; intros s Hn.
    - destruct s; [|cbn in Hn; lia]. split; [done | by exists []].
    - destruct s as [|a s1]; [split; [done | by exists []]|].
      cbn [strip]. destruct (is_ws a) eqn:Ha.
      { destruct (IH s1) as [Hc [w Hw]]; [cbn in Hn; lia|].
        split; [done|]. exists (a :: w). cbn. by rewrite <- Hw. }
      destruct s1 as [|b s2].
      { split; [cbn; by rewrite Ha | by exists []]. }
      destruct (w2 a b) eqn:Hb.
      { destruct (IH s2) as [Hc [w Hw]]; [cbn in Hn; lia|].
        split; [done|]. exists (a :: b :: w). cbn. by rewrite <- Hw. }
      destruct s2 as [|c s3].
      { split; [cbn; by rewrite Ha, Hb | by exists []]. }
      destruct (w3 a b c) eqn:Hc3.
      { destruct (IH s3) as [Hc [w Hw]]; [cbn in Hn; lia|].
        split; [done|]. exists (a :: b :: c :: w). cbn. by rewrite <- Hw. }
      split; [cbn; by rewrite Ha, Hb, Hc3 | by exists []]. }
  by apply (H (length s)).
Qed.

Lemma clean_app w2 w3 s s' : clean w2 w3 (s ++ s') = true -> clean w2 w3 s = true.
Proof.
  destruct s as [|a [|b [|c s]]]; cbn; try done.
  - destruct (is_ws a); [done|]. done.
  - destruct (is_ws a); [done|]. destruct (w2 a b); done.
Qed.

(** Trimming is idempotent: what [trim] returns has nothing left to trim. *)
Lemma trim_idem t : trim (trim t) = trim t.
Proof.
  unfold trim. rewrite list_ascii_of_string_of_list_ascii. f_equal.
  unfold trim_end, trim_start.
  destruct (strip_spec is_ws2 is_ws3 (list_ascii_of_string t)) as [Hx _].
  remember (strip is_ws2 is_ws3 (list_ascii_of_string t)) as x eqn:Heqx.
  clear Heqx.
  destruct (strip_spec (fun a b => is_ws2 b a) (fun a b c => is_ws3 c b a) (rev x))
    as [He [w Hw]].
  remember (strip (fun a b => is_ws2 b a) (fun a b c => is_ws3 c b a) (rev x))
    as e eqn:Heqe.
  clear Heqe.
  assert (x = (rev e ++ rev w)%list) as Hxe.
  { rewrite <- rev_app_distr, <- Hw. by rewrite rev_involutive. }
  assert (strip is_ws2 is_ws3 (rev e) = rev e) as ->.
  { apply strip_clean. apply (clean_app _ _ _ (rev w)). by rewrite <- Hxe. }
  rewrite rev_involutive. by rewrite (strip_clean _ _ e He).
Qed.

Lemma trimmed_trim t : trim t <> "" -> trimmed (trim t).
Proof. intros H. split; [done | apply trim_idem]. Qed.

Lemma optional_title_Accept v o :
  optional_title v = Accept o ->
  o = None \/ exists t, o = Some t /\ trimmed t.
Proof.
  unfold optional_title. destruct v as [| | | | |t| | |]; try done.
  - intros [= <-]. by left.
  - case_bool_decide; [done|]. intros [= <-]. right. eexists. split; [done|].
    by apply trimmed_trim.
Qed.

(** *** Every run of a handler is a step *)

Ltac step_unfold :=
  prisma_unfold;
  unfold board_create, board_update, board_delete, list_create,
    list_update_title, list_delete, card_create, card_update, card_delete,
    mbind, option_bind in *;
  cbn [now past fst snd] in *.

Ltac step_facts :=
  repeat match goal with
         | H : negb _ = false |- _ => apply negb_false_iff in H
         | H : bool_decide _ = true |- _ => apply bool_decide_eq_true in H
         | H : required_title _ = Accept _ |- _ =>
             apply required_title_Accept in H as (? & -> & -> & ?%trimmed_trim)
         | H : optional_title _ = Accept _ |- _ =>
             apply optional_title_Accept in H as [-> | (? & -> & ?)]
         end.

Lemma handle_step userId u r s :
  authenticated userId = Some u ->
  Step u r s (now (handle userId r s).2).
Proof.
  intros Hu.
  destruct r; step_unfold; repeat (prisma_step; try apply step_none).
  all: step_facts.
  all: try (econstructor; by eauto).
  match goal with
  | Hc : check_entries _ = Accept ?pairs |- _ =>
      eapply (step_reorderLists u body pairs); try eassumption
  end.
  - unfold reorder_pairs. rewrite_known. cbn. rewrite_known. cbn. by rewrite_known.
  - unfold first_id, reorder_pairs. rewrite_known. cbn. rewrite_known. cbn.
    by rewrite_known.
  - cbn. rewrite_known. cbn. by rewrite_known.
Qed.

(** *** Invariants *)

Lemma step_integrity u r s s' :
  Step u r s s' -> integrity s -> integrity s'.
Proof.
  intros Hstep (Hl & Hc & Hm).
  destruct Hstep; unfold integrity, set_boards, set_lists, set_cards; cbn.
  all: try match goal with
       | H : run_batch _ _ = Some _ |- _ =>
           apply run_batch_reorder in H as (-> & -> & -> & Hs')
       end.
  all: repeat split; intros k x Hk; unfold is_Some in *.
  all: try setoid_rewrite Hs'; try rewrite Hs' in Hk.
  all: rewrite ?lookup_insert_Some, ?lookup_delete_Some, ?map_lookup_filter_Some,
         ?fmap_Some in Hk.
  all: try setoid_rewrite lookup_insert_Some.
  all: try setoid_rewrite lookup_delete_Some.
  all: try setoid_rewrite map_lookup_filter_Some.
  all: try setoid_rewrite fmap_Some.
  all: cbn [fst snd] in *.
  all: destruct_or?; destruct_and?; simplify_eq/=.
  all: try match goal with
       | H : ex _ |- _ => destruct H as (? & ? & ->)
       end.
  all: repeat match goal with
       | H : lists _ !! _ = Some ?l |- _ =>
           lazymatch goal with
           | _ : boards _ !! l_boardId l = Some _ |- _ => fail
           | _ => destruct (Hl _ _ H) as [? ?]
           end
       | H : cards _ !! _ = Some ?c |- _ =>
           lazymatch goal with
           | _ : lists _ !! c_listId c = Some _ |- _ => fail
           | _ => destruct (Hc _ _ H) as [? ?]
           end
       | H : members _ !! _ = Some ?m |- _ =>
           lazymatch goal with
           | _ : boards _ !! m_boardId m = Some _ |- _ => fail
           | _ => destruct (Hm _ _ H) as [? ?]
           end
       end.
  all: try match goal with
       | |- exists _, (?a = ?b /\ _) \/ _ => destruct (decide (a = b)); [by eauto|]
       end.
  all: try match goal with
       | H : card_in_board _ _ _ = false |- _ =>
           unfold card_in_board in H;
           match goal with
           | Hp : lists _ !! _ = Some _ |- _ =>
               rewrite Hp in H; apply bool_decide_eq_false in H
           end
       end.
  all: try match goal with
       | |- context [with_order ?o ?l] => destruct o; cbn
       end.
  all: eauto.
  all: rewrite H3; eauto.
Qed.

(** *** Stored titles *)

Lemma step_titles u r s s' :
  Step u r s s' -> titles_trimmed s -> titles_trimmed s'.
Proof.
  intros Hstep (Hb & Hl & Hc).
  destruct Hstep; unfold titles_trimmed, set_boards, set_lists, set_cards; cbn.
  8: apply run_batch_reorder in H4 as (Hb' & Hm' & Hc' & Hs'); rewrite Hb', Hc'.
  all: (split; [|split]); intros kk xx Hk.
  all: try rewrite Hs' in Hk.
  all: rewrite ?lookup_insert_Some, ?lookup_delete_Some, ?map_lookup_filter_Some,
         ?fmap_Some in Hk.
  all: destruct_or?; destruct_and?; simplify_eq/=.
  all: try match goal with
       | H : ex _ |- _ => destruct H as (? & ? & ->)
       end.
  all: try match goal with
       | |- context [with_order ?o ?l] => destruct o; cbn
       end.
  all: eauto.
  rewrite H5. eauto.
Qed.

(** Every handler keeps the references of the store intact: after any
    request every list is on a stored board, every card on a stored list
    and every member row on a stored board, if that was so before. *)
Lemma handlers_keep_integrity userId r s :
  integrity s -> integrity (now (handle userId r s).2).
Proof.
  intros Hs. destruct (authenticated userId) as [u|] eqn:Hu.
  - eapply step_integrity; [by apply handle_step | done].
  - by rewrite (unauthenticated_unchanged _ r s Hu).
Qed.

(** No handler stores a blank or untrimmed title: if every title in the
    store is non-empty and equal to its own trim, so it is after any
    request. *)
Lemma handlers_keep_titles_trimmed userId r s :
  titles_trimmed s -> titles_trimmed (now (handle userId r s).2).
Proof.
  intros Hs. destruct (authenticated userId) as [u|] eqn:Hu.
  - eapply step_titles; [by apply handle_step | done].
  - by rewrite (unauthenticated_unchanged _ r s Hu).
Qed.

(** *** Isolation of a board *)

Lemma step_isolated u r s s' B b :
  Step u r s s' ->
  is_reorderLists r = false ->
  boards s !! B = Some b ->
  hasAccess (b, members_of s B) u = false ->
  boards s' !! B = Some b
  /\ (forall k m, m_boardId m = B ->
        (members s' !! k = Some m <-> members s !! k = Some m))
  /\ (forall k l, l_boardId l = B ->
        (lists s' !! k = Some l <-> lists s !! k = Some l))
  /\ (forall k c, card_in_board s B c = true ->
        (cards s' !! k = Some c <-> cards s !! k = Some c)).
Proof.
  intros Hstep Hr HB Hacc.
  assert (Hown : b_ownerId b <> u).
  { unfold hasAccess in Hacc. apply orb_false_iff in Hacc as [Ho _].
    by apply bool_decide_eq_false in Ho. }
  destruct Hstep; try discriminate Hr;
    unfold set_boards, set_lists, set_cards, card_in_board; cbn.
  all: repeat match goal with
       | Hb : boards _ !! ?X = Some ?b0,
         Ha : hasAccess (?b0, members_of _ ?X) _ = true |- _ =>
           assert (X <> B) by (intros Heq; rewrite Heq in *; simplify_eq; congruence);
           clear Ha
       | Hb : boards _ !! ?X = Some ?b0, Ha : b_ownerId ?b0 = _ |- _ =>
           assert (X <> B) by (intros Heq; rewrite Heq in *; simplify_eq; congruence);
           clear Ha
       end.
  all: (split; [|split; [|split]]).
  all: try done.
  all: try (intros kk xx Hxx; split; intros Hk).
  all: rewrite ?lookup_insert_Some, ?lookup_delete_Some, ?map_lookup_filter_Some in *.
  all: cbn [fst snd] in *.
  all: destruct_or?; destruct_and?; simplify_eq/=.
  all: try match goal with
       | |- (?a = ?b /\ _) \/ _ =>
           destruct (decide (a = b)); [left | right]; simplify_eq/=
       | |- ?a <> ?b /\ _ =>
           destruct (decide (a = b)); simplify_eq/=
       end.
  all: repeat match goal with
       | H : lists ?s !! ?k = Some _,
         H' : context [match lists ?s !! ?k with _ => _ end] |- _ =>
           rewrite H in H'
       | H : lists ?s !! ?k = Some _
         |- context [match lists ?s !! ?k with _ => _ end] =>
           rewrite H
       end.
  all: repeat match goal with
       | H : bool_decide _ = true |- _ => apply bool_decide_eq_true in H
       end.
  all: try done.
  all: try congruence.
  1: { split; [done|]. destruct (lists s !! c_listId xx); [|done].
       apply bool_decide_eq_true in Hxx. apply bool_decide_eq_false. congruence. }
  all: try (split; [done|]; intros Heq; rewrite Heq in *).
  all: repeat match goal with
       | H : ?x = _, H' : context [match lists ?s !! ?x with _ => _ end] |- _ =>
           rewrite H in H'
       | H : lists ?s !! ?k = Some _,
         H' : context [match lists ?s !! ?k with _ => _ end] |- _ =>
           rewrite H in H'
       | H : bool_decide _ = true |- _ => apply bool_decide_eq_true in H
       end.
  all: congruence.
Qed.

(** Isolation of a board.  A user without access to board [B] leaves [B]
    untouched by any request other than a reorder: the board row, its
    member rows, its lists and the cards on its lists are after the request
    what they were before. *)
Lemma board_isolated userId u r s B b :
  authenticated userId = Some u ->
  boards s !! B = Some b ->
  hasAccess (b, members_of s B) u = false ->
  is_reorderLists r = false ->
  boards (now (handle userId r s).2) !! B = Some b
  /\ (forall k m, m_boardId m = B ->
        (members (now (handle userId r s).2) !! k = Some m <-> members s !! k = Some m))
  /\ (forall k l, l_boardId l = B ->
        (lists (now (handle userId r s).2) !! k = Some l <-> lists s !! k = Some l))
  /\ (forall k c, card_in_board s B c = true ->
        (cards (now (handle userId r s).2) !! k = Some c <-> cards s !! k = Some c)).
Proof.
  intros Hu HB Hacc Hr. eapply step_isolated; eauto using handle_step.
Qed.





(** *** Consecutive creations *)

Lemma nextOrder_after_insert (orders orders' : list Z) :
  (forall x, x ∈ orders' <-> x = nextOrder (first_desc orders) \/ x ∈ orders) ->
  nextOrder (first_desc orders') = nextOrder (first_desc orders) + 1.
Proof.
  intros Hin.
  destruct (nextOrder_first_desc orders) as (Habove & _ & _).
  destruct (nextOrder_first_desc orders') as (Habove' & _ & Hnext').
  assert (Hn : nextOrder (first_desc orders) ∈ orders') by (apply Hin; by left).
  destruct Hnext' as (x & Hx & Heq).
  { intros Hnil. rewrite Hnil in Hn. by apply elem_of_nil in Hn. }
  specialize (Habove' _ Hn).
  apply Hin in Hx as [-> | Hx]; [done|]. specialize (Habove _ Hx). lia.
Qed.

Lemma list_orders_after_create s boardId id t :
  lists s !! id = None ->
  nextOrder (first_desc (list_orders
    (set_lists <[id := mkList t (nextOrder (first_desc (list_orders s boardId)))
                          boardId]> s) boardId))
  = nextOrder (first_desc (list_orders s boardId)) + 1.
Proof.
  intros Hfresh. apply nextOrder_after_insert. intros x.
  rewrite !elem_of_list_orders. cbn. split.
  - intros (k & l & Hk & Hb & Hx).
    apply lookup_insert_Some in Hk as [[<- <-] | [_ Hk]]; [by left|].
    right. eauto.
  - intros [-> | (k & l & Hk & Hb & Hx)].
    + exists id. eexists. split; [apply lookup_insert_eq | done].
    + exists k, l. split; [|done]. rewrite lookup_insert_ne; [done|congruence].
Qed.

Lemma card_orders_after_create s listId id c :
  cards s !! id = None ->
  c_listId c = listId ->
  c_order c = nextOrder (first_desc (card_orders s listId)) ->
  nextOrder (first_desc (card_orders (set_cards <[id := c]> s) listId))
  = nextOrder (first_desc (card_orders s listId)) + 1.
Proof.
  intros Hfresh Hl Ho. apply nextOrder_after_insert. intros x.
  rewrite !elem_of_card_orders. cbn. split.
  - intros (k & c' & Hk & Hb & Hx).
    apply lookup_insert_Some in Hk as [[<- <-] | [_ Hk]]; [left; congruence|].
    right. eauto.
  - intros [-> | (k & c' & Hk & Hb & Hx)].
    + exists id, c. split; [apply lookup_insert_eq | done].
    + exists k, c'. split; [|done]. rewrite lookup_insert_ne; [done|congruence].
Qed.

(** Two lists created one after the other in the same board get consecutive
    orders, whoever creates them; so do two cards created in the same
    list.  And after a first creation the second does succeed, for a user
    with access who sends an accepted title (and, for a card, acceptable
    optional fields) under another new id, when the column takes the order
    after the first one's. *)
Lemma consecutive_creations userId1 userId2 body1 body2 id1 id2 s :
  (forall boardId,
      status (handle userId1 (CreateList boardId body1 id1) s).1 = 201 ->
      status (handle userId2 (CreateList boardId body2 id2)
                (now (handle userId1 (CreateList boardId body1 id1) s).2)).1 = 201 ->
      exists l1 l2,
        lists (now (handle userId2 (CreateList boardId body2 id2)
                      (now (handle userId1 (CreateList boardId body1 id1) s).2)).2)
          !! id1 = Some l1
        /\ lists (now (handle userId2 (CreateList boardId body2 id2)
                        (now (handle userId1 (CreateList boardId body1 id1) s).2)).2)
             !! id2 = Some l2
        /\ l_order l2 = l_order l1 + 1)
  /\ (forall listId,
        status (handle userId1 (CreateCard listId body1 id1) s).1 = 201 ->
        status (handle userId2 (CreateCard listId body2 id2)
                  (now (handle userId1 (CreateCard listId body1 id1) s).2)).1 = 201 ->
        exists c1 c2,
          cards (now (handle userId2 (CreateCard listId body2 id2)
                        (now (handle userId1 (CreateCard listId body1 id1) s).2)).2)
            !! id1 = Some c1
          /\ cards (now (handle userId2 (CreateCard listId body2 id2)
                          (now (handle userId1 (CreateCard listId body1 id1) s).2)).2)
               !! id2 = Some c2
          /\ c_order c2 = c_order c1 + 1)
  /\ (forall boardId u2 b,
        status (handle userId1 (CreateList boardId body1 id1) s).1 = 201 ->
        authenticated userId2 = Some u2 ->
        accepted_title body2 = true ->
        boards s !! boardId = Some b ->
        hasAccess (b, members_of s boardId) u2 = true ->
        id2 <> id1 ->
        lists s !! id2 = None ->
        order_ok (nextOrder (first_desc (list_orders s boardId)) + 1) = true ->
        status (handle userId2 (CreateList boardId body2 id2)
                  (now (handle userId1 (CreateList boardId body1 id1) s).2)).1 = 201)
  /\ (forall listId u2 boardId b,
        status (handle userId1 (CreateCard listId body1 id1) s).1 = 201 ->
        authenticated userId2 = Some u2 ->
        accepted_title body2 = true ->
        card_fields_ok body2 = true ->
        board_of_list s listId = Some boardId ->
        boards s !! boardId = Some b ->
        hasAccess (b, members_of s boardId) u2 = true ->
        id2 <> id1 ->
        cards s !! id2 = None ->
        order_ok (nextOrder (first_desc (card_orders s listId)) + 1) = true ->
        status (handle userId2 (CreateCard listId body2 id2)
                  (now (handle userId1 (CreateCard listId body1 id1) s).2)).1 = 201).
Proof.
  split; [|split; [|split]]; cycle 2.
  { intros boardId u2 b H1 Hu2 Ht Hb Hacc Hne Hfresh Hord.
    destruct (createList_201 _ _ _ _ _ H1) as (t1 & Hf1 & _ & Hw1).
    rewrite Hw1. cbn [now].
    eapply createList_succeeds; try eassumption.
    - cbn. by rewrite lookup_insert_ne.
    - by rewrite list_orders_after_create. }
  { intros listId u2 boardId b H1 Hu2 Ht Hf Hl Hb Hacc Hne Hfresh Hord.
    destruct (createCard_201 _ _ _ _ _ H1) as (c1 & Ho1 & Hl1 & Hf1 & _ & Hw1).
    rewrite Hw1. cbn [now].
    eapply createCard_succeeds; try eassumption.
    - cbn. by rewrite lookup_insert_ne.
    - by rewrite (card_orders_after_create s listId id1 c1). }
  - intros boardId H1 H2.
    destruct (createList_201 _ _ _ _ _ H1) as (t1 & Hf1 & _ & Hw1).
    rewrite Hw1 in H2 |- *. cbn [now] in *.
    destruct (createList_201 _ _ _ _ _ H2) as (t2 & Hf2 & _ & Hw2).
    rewrite Hw2. cbn [now set_lists lists] in *.
    assert (id1 <> id2) as Hne by (intros ->; by rewrite lookup_insert_eq in Hf2).
    eexists _, _. split; [|split].
    + rewrite lookup_insert_ne by done. apply lookup_insert_eq.
    + apply lookup_insert_eq.
    + cbn. by apply list_orders_after_create.
  - intros listId H1 H2.
    destruct (createCard_201 _ _ _ _ _ H1) as (c1 & Ho1 & Hl1 & Hf1 & _ & Hw1).
    rewrite Hw1 in H2 |- *. cbn [now] in *.
    destruct (createCard_201 _ _ _ _ _ H2) as (c2 & Ho2 & Hl2 & Hf2 & _ & Hw2).
    rewrite Hw2. cbn [now set_cards cards] in *.
    assert (id1 <> id2) as Hne by (intros ->; by rewrite lookup_insert_eq in Hf2).
    exists c1, c2. split; [|split].
    + rewrite lookup_insert_ne by done. apply lookup_insert_eq.
    + apply lookup_insert_eq.
    + rewrite Ho1, Ho2. by apply card_orders_after_create.
Qed.

(** *** Moving a card there and back *)

Lemma move_body_args l z :
  prop (move_body l z) "listId" = Value (JStr l)
  /\ prop (move_body l z) "order" = Value (JNum z).
Proof. split; reflexivity. Qed.

Lemma moveCard_succeeds userId u id l z c sl sb tl tb s :
  authenticated userId = Some u ->
  l <> "" ->
  cards s !! id = Some c ->
  lists s !! c_listId c = Some sl ->
  boards s !! l_boardId sl = Some sb ->
  hasAccess (sb, members_of s (l_boardId sl)) u = true ->
  lists s !! l = Some tl ->
  boards s !! l_boardId tl = Some tb ->
  hasAccess (tb, members_of s (l_boardId tl)) u = true ->
  order_ok z = true ->
  handle userId (MoveCard id (move_body l z)) s
  = ({| status := 200; message := "Card moved successfully";
        payload := CardP id (moved c l z) |},
     {| now := set_cards <[id := moved c l z]> s; past := [s] |}).
Proof.
  intros Hu Hl Hc Hsl Hsb Hsa Htl Htb Hta Hz.
  assert (bool_decide (l = "") = false) as Hl' by by apply bool_decide_eq_false.
  destruct (move_body_args l z) as [Hpl Hpo].
  step_unfold. rewrite Hpl, Hpo. cbn [truthy is_number].
  rewrite Hu, Hl'. cbn [negb orb].
  repeat (prisma_step; try done).
  all: by rewrite ?Hsa, ?Hta in *.
Qed.

(** A move that succeeded can be taken back: the same user moving the card
    to the list and position it came from is answered 200, and the store is
    again what it was before the first move. *)
Lemma moveCard_undo userId id l z c s :
  cards s !! id = Some c ->
  c_listId c <> "" ->
  order_ok (c_order c) = true ->
  status (handle userId (MoveCard id (move_body l z)) s).1 = 200 ->
  status (handle userId (MoveCard id (move_body (c_listId c) (c_order c)))
            (now (handle userId (MoveCard id (move_body l z)) s).2)).1 = 200
  /\ now (handle userId (MoveCard id (move_body (c_listId c) (c_order c)))
            (now (handle userId (MoveCard id (move_body l z)) s).2)).2 = s.
Proof.
  intros Hc Hne Hz H200.
  apply moveCard_200 in H200
    as (u & c0 & l0 & v0 & z0 & source & src & target & tgt & Hu & Hargs & Hv0 & Hc0
        & Hsource & Hsrc & Hsa & Htarget & Htgt & Hta & Hz0 & Hw).
  assert (c0 = c) as -> by congruence.
  unfold move_args in Hargs.
  rewrite (proj1 (move_body_args l z)), (proj2 (move_body_args l z)) in Hargs.
  destruct (negb (truthy (JStr l)) || negb (is_number (JNum z))); [done|].
  injection Hargs as <- <-. injection Hv0 as <-.
  rewrite Hw. cbn [now].
  unfold board_of_card, board_of_list, mbind, option_bind in Hsource, Htarget.
  rewrite Hc in Hsource.
  destruct (lists s !! c_listId c) as [sl|] eqn:Hsl; [|done].
  destruct (boards s !! l_boardId sl) as [sb|] eqn:Hsb; [|done].
  injection Hsource as <-. assert (sb = src) as -> by congruence.
  destruct (lists s !! l) as [tl|] eqn:Htl; [|done].
  destruct (boards s !! l_boardId tl) as [tb|] eqn:Htb; [|done].
  injection Htarget as <-. assert (tb = tgt) as -> by congruence.
  rewrite (moveCard_succeeds userId u id (c_listId c) (c_order c) (moved c l z)
             tl tgt sl src); try done.
  - cbn. split; [done|]. unfold set_cards. cbn.
    rewrite insert_insert_eq.
    replace (moved (moved c l z) (c_listId c) (c_order c)) with c by by destruct c.
    by apply insert_card_id.
  - apply lookup_insert_eq.
Qed.

(** *** Reordering twice *)

Lemma reorderLists_200_authorized userId s body :
  status (handle userId (ReorderLists body) s).1 = 200 ->
  exists u pairs i l b,
    authenticated userId = Some u
    /\ reorder_pairs body = Some pairs
    /\ first_id body = Some i
    /\ lists s !! i = Some l
    /\ boards s !! l_boardId l = Some b
    /\ hasAccess (b, members_of s (l_boardId l)) u = true.
Proof.
  unfold first_id, reorder_pairs, mbind, option_bind. prisma_run.
  intros _. apply negb_false_iff in Heqb0. eexists _, _, _, _, _.
  repeat split; try done.
Qed.

(** A reorder that succeeded is idempotent: the same request on the store
    it produced is answered 200 again and produces that same store. *)
Lemma reorderLists_idempotent userId body s :
  status (handle userId (ReorderLists body) s).1 = 200 ->
  status (handle userId (ReorderLists body)
            (now (handle userId (ReorderLists body) s).2)).1 = 200
  /\ now (handle userId (ReorderLists body)
            (now (handle userId (ReorderLists body) s).2)).2
     = now (handle userId (ReorderLists body) s).2.
Proof.
  intros H200.
  destruct (reorderLists_200_authorized _ _ _ H200)
    as (u & pairs & i & l & b & Hu & Hpairs & Hfirst & Hl & Hb & Hacc).
  destruct (reorderLists_200 _ _ _ H200) as (pairs' & r & s1 & Hpairs' & Hrun & Hw).
  assert (pairs' = pairs) as -> by congruence.
  rewrite Hw. cbn [now].
  destruct (run_batch_reorder _ _ _ _ Hrun) as (Hbs & Hms & Hcs & Hls).
  assert (Hboard : board_of_list s1 i = Some (l_boardId l)).
  { unfold board_of_list, mbind, option_bind. rewrite Hls, Hl. cbn.
    replace (l_boardId (with_order (assigned i pairs) l)) with (l_boardId l)
      by by destruct (assigned i pairs).
    by rewrite Hbs, Hb. }
  assert (Hacc1 : hasAccess (b, members_of s1 (l_boardId l)) u = true).
  { unfold members_of in *. by rewrite Hms. }
  assert (Hb1 : boards s1 !! l_boardId l = Some b) by by rewrite Hbs.
  rewrite (reorderLists_authorized _ _ _ _ _ _ _ _ Hu Hpairs Hfirst Hboard Hb1 Hacc1).
  destruct (run_batch _ s1) as [[r2 s2]|] eqn:Hrun2.
  - cbn. split; [done|].
    destruct (run_batch_reorder _ _ _ _ Hrun2) as (Hbs2 & Hms2 & Hcs2 & Hls2).
    destruct s1 as [b1 m1 l1 c1], s2 as [b2 m2 l2 c2]. cbn in *.
    f_equal; try done.
    apply map_eq. intros j. rewrite Hls2, Hls.
    destruct (lists s !! j) as [lj|]; [|done]. cbn.
    by destruct (assigned j pairs).
  - exfalso. apply run_batch_reorder_None in Hrun2 as (p & Hp & Hnone).
    assert (run_batch ((fun p => list_update_order p.1 p.2) <$> pairs) s = None)
      as Hcontra; [|congruence].
    apply run_batch_reorder_None. exists p. split; [done|].
    apply (list_update_order_None_dom _ _ s s1); [|done].
    intros j. by rewrite Hls, fmap_is_Some.
Qed.

(** *** Renaming a list *)

(** [updateList] answered 200 has replaced the title of that list by the
    trimmed title of the body and changed nothing else: the list keeps its
    order and its board, and every other list, the boards, the member rows
    and the cards are as before. *)
Lemma updateList_renames_only userId id body s :
  status (handle userId (UpdateList id body) s).1 = 200 ->
  exists l t,
    lists s !! id = Some l
    /\ prop body "title" = Value (JStr t)
    /\ now (handle userId (UpdateList id body) s).2
       = set_lists <[id := mkList (trim t) (l_order l) (l_boardId l)]> s
    /\ payload (handle userId (UpdateList id body) s).1
       = ListP id (mkList (trim t) (l_order l) (l_boardId l)).
Proof.
  prisma_run_queries. intros _.
  match goal with
  | H : required_title _ = Accept _ |- _ =>
      apply required_title_Accept in H as (t0 & -> & -> & _)
  end.
  eexists _, _. repeat split; done.
Qed.

(** *** What is deleted is gone *)

(** After a delete answered 200 the deleted card, list or board is not
    found any more, and neither is what hung below it: the cards of a
    deleted list, the lists and cards of a deleted board. *)
Lemma deleted_is_gone userId userId' u' s :
  authenticated userId' = Some u' ->
  (forall id,
      status (handle userId (DeleteCard id) s).1 = 200 ->
      status (handle userId' (GetCard id)
                (now (handle userId (DeleteCard id) s).2)).1 = 404)
  /\ (forall id,
        status (handle userId (DeleteList id) s).1 = 200 ->
        status (handle userId' (DeleteList id)
                  (now (handle userId (DeleteList id) s).2)).1 = 404
        /\ forall k c, cards s !! k = Some c -> c_listId c = id ->
             status (handle userId' (GetCard k)
                       (now (handle userId (DeleteList id) s).2)).1 = 404)
  /\ (forall id,
        status (handle userId (DeleteBoard id) s).1 = 200 ->
        status (handle userId' (GetBoardById id)
                  (now (handle userId (DeleteBoard id) s).2)).1 = 404
        /\ (forall k l, lists s !! k = Some l -> l_boardId l = id ->
              status (handle userId' (DeleteList k)
                        (now (handle userId (DeleteBoard id) s).2)).1 = 404)
        /\ (forall k c l, cards s !! k = Some c -> lists s !! c_listId c = Some l ->
              l_boardId l = id ->
              status (handle userId' (GetCard k)
                        (now (handle userId (DeleteBoard id) s).2)).1 = 404)).
Proof.
  intros Hu'.
  assert (Hgone : forall r s1, target_missing s1 r = true -> payload_ok r = true ->
                               status (handle userId' r s1).1 = 404).
  { intros r s1 Hm Hp. by apply (missing_target_status userId' u' r s1 Hu' Hm). }
  split; [|split].
  - intros id H200. apply Hgone; [|done]. cbn. apply bool_decide_eq_true.
    revert H200. prisma_run_queries. intros _. apply lookup_delete_eq.
  - intros id H200.
    assert (now (handle userId (DeleteList id) s).2
            = {| boards := boards s; members := members s;
                 lists := delete id (lists s);
                 cards := filter (fun p => c_listId p.2 <> id) (cards s) |}) as ->.
    { revert H200. prisma_run_queries. }
    split.
    + apply Hgone; [|done]. cbn. apply bool_decide_eq_true, lookup_delete_eq.
    + intros k c Hk Hc. apply Hgone; [|done]. cbn. apply bool_decide_eq_true.
      apply map_lookup_filter_None. right. intros c' Hk'. cbn. congruence.
  - intros id H200.
    assert (now (handle userId (DeleteBoard id) s).2
            = {| boards := delete id (boards s);
                 members := filter (fun p => m_boardId p.2 <> id) (members s);
                 lists := filter (fun p => l_boardId p.2 <> id) (lists s);
                 cards := filter (fun p => card_in_board s id p.2 = false) (cards s) |})
      as ->.
    { revert H200. prisma_run_queries. }
    split; [|split].
    + apply Hgone; [|done]. cbn. apply bool_decide_eq_true, lookup_delete_eq.
    + intros k l Hk Hl. apply Hgone; [|done]. cbn. apply bool_decide_eq_true.
      apply map_lookup_filter_None. right. intros l' Hk'. cbn. congruence.
    + intros k c l Hk Hl Hb. apply Hgone; [|done]. cbn. apply bool_decide_eq_true.
      apply map_lookup_filter_None. right. intros c' Hk'. cbn.
      assert (c' = c) as -> by congruence.
      unfold card_in_board. rewrite Hl. rewrite bool_decide_eq_true_2; done.
Qed.

(** ** The middleware *)

Lemma split_space_spaceless s : spaceless s = true -> split_space s = [s].
Proof.
  induction s as [|a s IH]; [done|]. cbn.
  destruct (Ascii.eqb a " "); [done|]. cbn. intros Hs. by rewrite IH.
Qed.

Lemma split_space_app a rest :
  spaceless a = true ->
  split_space (a ++ String " " rest) = a :: split_space rest.
Proof.
  induction a as [|c a IH]; [done|]. intros Ha.
  change (String c a ++ String " " rest) with (String c (a ++ String " " rest)).
  cbn [split_space spaceless] in *.
  destruct (Ascii.eqb c " "); [done|]. by rewrite IH.
Qed.

Lemma authenticateToken_two_words scheme token :
  spaceless scheme = true -> spaceless token = true -> token <> "" ->
  authenticateToken (Some (scheme ++ String " " token))
  = match jwt_verify token with
    | Some decoded => Next decoded
    | None => Refused {| status := 403; message := "Invalid or expired token";
                         payload := NoPayload |}
    end.
Proof.
  intros Hs Ht Hne. unfold authenticateToken, bearer_token.
  rewrite bool_decide_eq_false_2 by by destruct scheme.
  rewrite split_space_app, split_space_spaceless by done. cbn.
  by destruct token.
Qed.

Lemma authenticateToken_second scheme token :
  spaceless scheme = true -> spaceless token = true ->
  authenticateToken (Some (scheme ++ String " " token))
  = if bool_decide (token = "")
    then Refused {| status := 401; message := "Access denied. No token provided.";
                    payload := NoPayload |}
    else match jwt_verify token with
         | Some decoded => Next decoded
         | None => Refused {| status := 403; message := "Invalid or expired token";
                              payload := NoPayload |}
         end.
Proof.
  intros Hs Ht. case_bool_decide as Hne.
  - subst. unfold authenticateToken, bearer_token.
    rewrite bool_decide_eq_false_2 by by destruct scheme.
    by rewrite split_space_app.
  - by apply authenticateToken_two_words.
Qed.

Lemma authenticateToken_rest scheme token rest :
  spaceless scheme = true -> spaceless token = true ->
  authenticateToken (Some (scheme ++ String " " (token ++ String " " rest)))
  = authenticateToken (Some (scheme ++ String " " token)).
Proof.
  intros Hs Ht. unfold authenticateToken, bearer_token.
  rewrite !bool_decide_eq_false_2 by by destruct scheme.
  rewrite !split_space_app by done. rewrite (split_space_spaceless token) by done.
  reflexivity.
Qed.

(** The middleware reads the second space-separated word of the header
    and nothing else.  A missing header, or one without a space, is
    answered 401.  A header [scheme token] is answered 401 when the token
    is empty, 403 when it does not verify, and passes the decoded payload
    on when it does, whatever the scheme word is ("Bearer" is not
    required).  A header with more words is treated as the header of its
    first two: what follows the second word is not read. *)
Lemma authenticateToken_reads_second_word :
  authenticateToken None
  = Refused {| status := 401; message := "Access denied. No token provided.";
               payload := NoPayload |}
  /\ (forall header, spaceless header = true ->
        authenticateToken (Some header)
        = Refused {| status := 401; message := "Access denied. No token provided.";
                     payload := NoPayload |})
  /\ (forall scheme token,
        spaceless scheme = true -> spaceless token = true ->
        authenticateToken (Some (scheme ++ String " " token))
        = if bool_decide (token = "")
          then Refused {| status := 401;
                          message := "Access denied. No token provided.";
                          payload := NoPayload |}
          else match jwt_verify token with
               | Some decoded => Next decoded
               | None => Refused {| status := 403; message := "Invalid or expired token";
                                    payload := NoPayload |}
               end)
  /\ (forall scheme token rest,
        spaceless scheme = true -> spaceless token = true ->
        authenticateToken (Some (scheme ++ String " " (token ++ String " " rest)))
        = authenticateToken (Some (scheme ++ String " " token))).
Proof.
  split; [done|]. split; [|split].
  - intros header Hs. unfold authenticateToken, bearer_token.
    case_bool_decide; [done|]. by rewrite split_space_spaceless.
  - apply authenticateToken_second.
  - apply authenticateToken_rest.
Qed.

(** ** The routers *)

Lemma lower_nonempty a b : lower a = lower b -> a <> "" -> b <> "".
Proof. intros H Ha ->. by destruct a. Qed.

Lemma put_lists_reorder q a b :
  h_method q = PUT ->
  strip_slash (h_path q) = [a; b] ->
  lower a = "lists" -> lower b = "reorder" ->
  dispatch listRoutes q
  = match decodeURIComponent b with
    | Some id => Handler (UpdateList id (h_body q))
    | None => BadParam
    end.
Proof.
  intros Hm Hp Ha Hb. unfold listRoutes, dispatch, call, mbind, option_bind.
  rewrite Hm, Hp. cbn. rewrite Ha.
  assert (b <> "") as Hne by (intros ->; vm_compute in Hb; discriminate Hb).
  change (method_matches POST PUT) with false.
  change (method_matches PUT PUT) with true. cbn.
  rewrite (bool_decide_eq_false_2 (b = "")) by done.
  by rewrite bool_decide_eq_true_2 by reflexivity.
Qed.

(** The list router never runs [reorderLists]: [PUT /lists/:id] is
    registered before [PUT /lists/reorder] and matches every path the
    latter matches, so such a request is handled by [updateList] with the
    id "reorder" (as the request spells it). *)
Lemma reorderLists_shadowed q :
  (forall body, dispatch listRoutes q <> Handler (ReorderLists body))
  /\ (forall a b,
        h_method q = PUT ->
        strip_slash (h_path q) = [a; b] ->
        lower a = "lists" -> lower b = "reorder" ->
        dispatch listRoutes q
        = match decodeURIComponent b with
          | Some id => Handler (UpdateList id (h_body q))
          | None => BadParam
          end).
Proof.
  split.
  - intros body. unfold listRoutes, dispatch, call, mbind, option_bind.
    destruct (h_method q); cbn;
      destruct (strip_slash (h_path q)) as [|a [|b [|c [|d path]]]]; cbn;
      repeat (case_bool_decide; cbn); try done;
      repeat (case_match; try done).
    all: subst; match goal with
                | H : _ = lower "" |- _ => vm_compute in H; discriminate H
                end.
  - intros a b. apply put_lists_reorder.
Qed.

(** Hence a reorder request sent to [PUT /lists/reorder] with a valid token
    is answered 400 and changes nothing: its body carries [lists] and no
    [title], and it is [updateList] that validates it. *)
Lemma reorder_endpoint_answers_400 q user a b s :
  authenticateToken (h_authorization q) = Next user ->
  p_userId user <> "" ->
  h_method q = PUT ->
  strip_slash (h_path q) = [a; b] ->
  lower a = "lists" -> lower b = "reorder" ->
  prop (h_body q) "title" = Value JUndefined ->
  exists r, router listRoutes q s = Some (r, unchanged s) /\ status r = 400.
Proof.
  intros Hauth Huser Hm Hp Ha Hb Htitle. unfold router. rewrite Hauth.
  rewrite (put_lists_reorder q a b Hm Hp Ha Hb).
  destruct (decodeURIComponent b) as [id|]; [|by eexists].
  assert (authenticated (Some (p_userId user)) = Some (p_userId user)) as Hu.
  { unfold authenticated. by rewrite bool_decide_eq_false_2. }
  eexists. split.
  - f_equal. unfold unchanged. prisma_unfold. rewrite Htitle, Hu. reflexivity.
  - done.
Qed.

(** In the board router and in the card router no route hides another: a
    request whose method and path match a registered route is handled by
    that route. *)
Lemma routes_not_shadowed routes i m pattern target params q :
  routes = boardRoutes \/ routes = cardRoutes ->
  routes !! i = Some (m, pattern, target) ->
  h_method q = m ->
  match_path pattern (strip_slash (h_path q)) = Some params ->
  call target params q = Some (dispatch routes q).
Proof.
  intros Hroutes Hi Hm Hp.
  destruct Hroutes as [-> | ->].
  all: destruct i as [|[|[|[|[|i]]]]]; try done; injection Hi as <- <- <-.
  all: unfold boardRoutes, cardRoutes, dispatch, mbind, option_bind; rewrite Hm.
  all: destruct (strip_slash (h_path q)) as [|a [|b [|c [|d path]]]]; cbn in Hp |- *.
  all: try done.
  all: repeat (case_bool_decide; cbn in Hp |- * ); try done.
  all: by simplify_eq/=.
Qed.

(** ** Registration and login *)


Lemma user_by_email_Some users email k u :
  user_by_email users email = Some (k, u) ->
  users !! k = Some u /\ u_email u = email.
Proof.
  unfold user_by_email. intros H. apply head_Some_elem_of in H.
  apply list_elem_of_filter in H as [He Hin]. by apply elem_of_map_to_list in Hin.
Qed.

Lemma user_by_email_None users email :
  user_by_email users email = None <->
  forall k u, users !! k = Some u -> u_email u <> email.
Proof.
  unfold user_by_email. rewrite head_None. split.
  - intros Hnil k u Hk He.
    assert ((k, u) ∈ filter (fun p : string * User => u_email p.2 = email)
                            (map_to_list users)) as Hin.
    { apply list_elem_of_filter. split; [done|]. by apply elem_of_map_to_list. }
    rewrite Hnil in Hin. by apply elem_of_nil in Hin.
  - intros Hno.
    destruct (filter _ (map_to_list users)) as [|[k u] rest] eqn:Hf; [done|].
    assert ((k, u) ∈ filter (fun p : string * User => u_email p.2 = email)
                            (map_to_list users)) as Hin
      by (rewrite Hf; apply elem_of_cons; by left).
    apply list_elem_of_filter in Hin as [He Hin].
    apply elem_of_map_to_list in Hin. by destruct (Hno k u Hin).
Qed.

Lemma user_by_email_unique users email k u :
  unique_emails users ->
  users !! k = Some u -> u_email u = email ->
  user_by_email users email = Some (k, u).
Proof.
  intros Huniq Hk He.
  destruct (user_by_email users email) as [[k' u']|] eqn:Hfind.
  - apply user_by_email_Some in Hfind as [Hk' He'].
    assert (k' = k) as -> by (eapply Huniq; eauto; congruence).
    congruence.
  - exfalso. by eapply (proj1 (user_by_email_None users email)).
Qed.

Lemma register_cases body newId salt users :
  (a_status (register body newId salt users).1 <> 201
   /\ (register body newId salt users).2 = users)
  \/ exists email password name,
      body_fields body email password name
      /\ users !! newId = None
      /\ user_by_email users email = None
      /\ register body newId salt users
         = ({| a_status := 201; a_message := "User registered successfully";
               a_token := Some (jwt_sign (mkPayload newId email));
               a_user := Some (newId, email, name) |},
            <[newId := mkUser email (bcrypt_hash salt password) name]> users).
Proof.
  unfold register, user_create, body_fields, generateToken, public.
  repeat (case_match; simplify_eq/=; try by left).
  right. eexists _, _, _. repeat split; done.
Qed.

Lemma register_unique body newId salt users :
  unique_emails users -> unique_emails (register body newId salt users).2.
Proof.
  intros Huniq.
  destruct (register_cases body newId salt users)
    as [[Hst Hsame] | (email & password & name & _ & Hfresh & Hnone & Hreg)].
  - by rewrite Hsame.
  - rewrite Hreg. cbn. pose proof (proj1 (user_by_email_None _ _) Hnone) as Hfree.
    intros k1 k2 u1 u2 H1 H2 Heq.
    apply lookup_insert_Some in H1 as [[<- <-] | [Hne1 H1]];
      apply lookup_insert_Some in H2 as [[<- <-] | [Hne2 H2]]; try done.
    + cbn in Heq. by destruct (Hfree k2 u2 H2).
    + cbn in Heq. by destruct (Hfree k1 u1 H1).
    + by eapply Huniq.
Qed.

(** [register] never lets two users share an email: a registration with an
    email that is taken is refused with the user table untouched, and any
    registration leaves the users there were as they are and keeps every
    email unique. *)
Lemma register_keeps_emails_unique body newId salt users :
  unique_emails users ->
  unique_emails (register body newId salt users).2
  /\ (forall k u, users !! k = Some u ->
        (register body newId salt users).2 !! k = Some u)
  /\ (forall email k u,
        prop body "email" = Value (JStr email) ->
        users !! k = Some u -> u_email u = email ->
        a_status (register body newId salt users).1 <> 201
        /\ (register body newId salt users).2 = users).
Proof.
  intros Huniq. split; [by apply register_unique|].
  destruct (register_cases body newId salt users)
    as [[Hst Hsame] | (email & password & name & (He & Hp & Hn) & Hfresh & Hnone & Hreg)].
  - rewrite Hsame. repeat split; try done.
  - rewrite Hreg. cbn. pose proof (proj1 (user_by_email_None _ _) Hnone) as Hfree.
    split.
    + intros k u Hk. rewrite lookup_insert_ne; [done|]. congruence.
    + intros email' k u He' Hk Hu. assert (email' = email) as -> by congruence.
      by destruct (Hfree k u Hk).
Qed.

(** The four answers of [login]. *)
Lemma login_cases body users :
  login body users = auth_message 400 "Email and password are required"
  \/ login body users = auth_server_error
  \/ login body users = auth_message 401 "Invalid email or password"
  \/ exists email password id user,
      prop body "email" = Value (JStr email)
      /\ prop body "password" = Value (JStr password)
      /\ users !! id = Some user
      /\ u_email user = email
      /\ bcrypt_compare password (u_password user) = true
      /\ login body users
         = {| a_status := 200; a_message := "Login successful";
              a_token := Some (jwt_sign (mkPayload id email));
              a_user := Some (id, email, u_name user) |}.
Proof.
  unfold login, generateToken, public.
  repeat (case_match; simplify_eq/=; auto).
  do 3 right.
  match goal with
  | H : user_by_email _ _ = Some _ |- _ => apply user_by_email_Some in H as [Hk He]
  end.
  match goal with
  | H : negb _ = false |- _ => apply negb_false_iff in H
  end.
  eexists _, _, _, _. repeat split; try done. by rewrite He.
Qed.

(** A failed login does not tell an unknown email from a wrong password:
    every login answered 401 gets one and the same response. *)
Lemma login_failures_alike body users :
  a_status (login body users) = 401 ->
  login body users = auth_message 401 "Invalid email or password".
Proof.
  destruct (login_cases body users)
    as [H | [H | [H | (e & p & k & u & _ & _ & _ & _ & _ & H)]]];
    rewrite H; done.
Qed.

(** A login answered 200 has found the user with that email, checked the
    password against the stored hash, and signed a token for that user's
    id; the hash itself is not in the response. *)
Lemma login_checks_password body users :
  a_status (login body users) = 200 ->
  exists email password id user,
    prop body "email" = Value (JStr email)
    /\ prop body "password" = Value (JStr password)
    /\ users !! id = Some user
    /\ u_email user = email
    /\ bcrypt_compare password (u_password user) = true
    /\ login body users
       = {| a_status := 200; a_message := "Login successful";
            a_token := Some (jwt_sign (mkPayload id email));
            a_user := Some (id, email, u_name user) |}.
Proof.
  destruct (login_cases body users) as [H | [H | [H | H]]];
    [rewrite H; done .. | auto].
Qed.

Lemma credentials_fields email password :
  prop (credentials email password) "email" = Value (JStr email)
  /\ prop (credentials email password) "password" = Value (JStr password).
Proof. split; reflexivity. Qed.

(** Who registered can log in: after a registration answered 201, a login
    with the same email and password is answered 200 with a token for the
    new user's id, provided [bcrypt.compare] accepts the password against
    the hash [bcrypt.hash] made of it. *)
Lemma register_then_login body newId salt users email password name :
  unique_emails users ->
  body_fields body email password name ->
  bcrypt_compare password (bcrypt_hash salt password) = true ->
  a_status (register body newId salt users).1 = 201 ->
  login (credentials email password) (register body newId salt users).2
  = {| a_status := 200; a_message := "Login successful";
       a_token := Some (jwt_sign (mkPayload newId email));
       a_user := Some (newId, email, name) |}.
Proof.
  intros Huniq (He & Hp & Hn) Hcmp H201.
  pose proof (register_unique body newId salt users Huniq) as Huniq'.
  destruct (register_cases body newId salt users)
    as [[Hst _] | (e & p & n & (He' & Hp' & Hn') & Hfresh & Hnone & Hreg)]; [done|].
  assert (e = email) as -> by congruence.
  assert (p = password) as -> by congruence.
  assert (n = name) as -> by congruence.
  rewrite Hreg in Huniq' |- *. cbn [snd] in *.
  destruct (credentials_fields email password) as [Hce Hcp].
  assert (email <> "") as Hene.
  { intros ->. revert H201. unfold register. rewrite He, Hp, Hn. done. }
  assert (password <> "") as Hpne.
  { intros ->. revert H201. unfold register. rewrite He, Hp, Hn. cbn.
    by rewrite orb_true_r. }
  unfold login. rewrite Hce, Hcp. cbn [truthy].
  rewrite !bool_decide_eq_false_2 by done. cbn [negb orb].
  rewrite (user_by_email_unique _ email newId
             (mkUser email (bcrypt_hash salt password) name) Huniq');
    [|apply lookup_insert_eq|done].
  cbn. by rewrite Hcmp.
Qed.

(** The token of a login opens the protected routes as the user who
    logged in: sent back as [Bearer token] it passes the middleware with
    the id of that user, and [getProfile] answers with that user,
    provided [jwt.verify] decodes what [jwt.sign] signed and the token is
    one word. *)
Lemma login_token_authenticates body users token id email name :
  login body users
  = {| a_status := 200; a_message := "Login successful";
       a_token := Some token; a_user := Some (id, email, name) |} ->
  jwt_verify token = Some (mkPayload id email) ->
  spaceless token = true -> token <> "" -> id <> "" ->
  authenticateToken (Some ("Bearer " ++ token)) = Next (mkPayload id email)
  /\ getProfile (Some id) users
     = {| a_status := 200; a_message := ""; a_token := None;
          a_user := Some (id, email, name) |}.
Proof.
  intros Hlogin Hverify Hword Htoken Hid.
  split.
  - change ("Bearer " ++ token) with ("Bearer" ++ String " " token).
    rewrite authenticateToken_two_words by done.
    by rewrite Hverify.
  - destruct (login_cases body users)
      as [H | [H | [H | (e & p & k & u & _ & _ & Hk & He & _ & Heq)]]];
      try by rewrite H in Hlogin.
    rewrite Heq in Hlogin. simplify_eq.
    unfold getProfile, authenticated, public.
    rewrite bool_decide_eq_false_2 by done.
    by rewrite Hk.
Qed.

End Controllers.

(** ** The properties at work on the sample store *)

(** Against C1 without its amendment: u2 is a member of board b1, so the
    owner-or-member check grants access, and yet [updateBoard] and
    [deleteBoard] answer 403. *)
Lemma member_refused_by_owner_check :
  is_member demo_store "b1" "u2"
  /\ hasAccess (mkBoard "Sprint" "u1", members_of demo_store "b1") "u2" = true
  /\ status (handle int32_ok any_date demo_labels (Some "u2")
               (UpdateBoard "b1" (titled "Roadmap")) demo_store).1 = 403
  /\ status (handle int32_ok any_date demo_labels (Some "u2")
               (DeleteBoard "b1") demo_store).1 = 403.
Proof.
  split; [|split; [|split]]; try (vm_compute; reflexivity).
  exists "m2", (mkMember "b1" "u2" "member"). by vm_compute.
Qed.

Lemma access_check_decides_witness :
  authenticated (Some "u3") = Some "u3"
  /\ "b1" ∈ checked_boards demo_store (CreateList "b1" (titled "Review") "l9")
  /\ boards demo_store !! "b1" = Some (mkBoard "Sprint" "u1")
  /\ status (handle int32_ok any_date demo_labels (Some "u3")
               (CreateList "b1" (titled "Review") "l9") demo_store).1 = 403
  /\ (handle int32_ok any_date demo_labels (Some "u3")
        (CreateList "b1" (titled "Review") "l9") demo_store).2
     = unchanged demo_store.
Proof.
  assert (Hu : authenticated (Some "u3") = Some "u3") by reflexivity.
  assert (Hin : "b1" ∈ checked_boards demo_store
                         (CreateList "b1" (titled "Review") "l9"))
    by (vm_compute; left).
  assert (Hb : boards demo_store !! "b1" = Some (mkBoard "Sprint" "u1"))
    by (vm_compute; reflexivity).
  split; [exact Hu|]. split; [exact Hin|]. split; [exact Hb|].
  apply (access_check_decides int32_ok any_date demo_labels _ _ _ _ _ _ Hu Hin Hb).
  vm_compute; reflexivity.
Defined.



(** C3: the code authorizes a reorder through its first entry only.  u2
    has access to board b1 and none to b2; the payload names l1 (of b1)
    first and then l3 (of b2).  The specification asks for AccessDenied;
    the handler answers 200 and has rewritten the order of l3.  With a
    second id that is not in the store the specification asks for NotFound;
    the handler answers 500. *)
Lemma reorderLists_checks_first_entry_only :
  board_of_list demo_store "l3" = Some "b2"
  /\ hasAccess (mkBoard "Private" "u3", members_of demo_store "b2") "u2" = false
  /\ status (handle int32_ok any_date demo_labels (Some "u2")
               (ReorderLists (JObj [("lists", JArr [entry "l1" 3; entry "l3" 5])]))
               demo_store).1 = 200
  /\ lists (now (handle int32_ok any_date demo_labels (Some "u2")
                   (ReorderLists (JObj [("lists", JArr [entry "l1" 3; entry "l3" 5])]))
                   demo_store).2) !! "l3" = Some (mkList "Backlog" 5 "b2")
  /\ lists demo_store !! "l9" = None
  /\ status (handle int32_ok any_date demo_labels (Some "u2")
               (ReorderLists (JObj [("lists", JArr [entry "l1" 3; entry "l9" 5])]))
               demo_store).1 = 500.
Proof.
  repeat split; vm_compute; reflexivity.
Qed.



(** Against C6 without its amendment: the target list l9 does not exist,
    and [moveCard] answers 403, not 404, to u3, who has no access to the
    board of the card; it answers 400, not 404, to u2, who has, when the
    order is not a number. *)
Lemma missing_target_list_behind_source_check :
  board_of_card demo_store "c1" = Some "b1"
  /\ hasAccess (mkBoard "Sprint" "u1", members_of demo_store "b1") "u3" = false
  /\ lists demo_store !! "l9" = None
  /\ status (handle int32_ok any_date demo_labels (Some "u3")
               (MoveCard "c1" (JObj [("listId", JStr "l9"); ("order", JNum 0)]))
               demo_store).1 = 403
  /\ hasAccess (mkBoard "Sprint" "u1", members_of demo_store "b1") "u2" = true
  /\ status (handle int32_ok any_date demo_labels (Some "u2")
               (MoveCard "c1" (JObj [("listId", JStr "l9"); ("order", JStr "0")]))
               demo_store).1 = 400.
Proof.
  repeat split; vm_compute; reflexivity.
Qed.

Lemma moveCard_outcomes_witness :
  authenticated (Some "u2") = Some "u2"
  /\ move_args (JObj [("listId", JStr "l3"); ("order", JNum 0)])
     = Some (JStr "l3", JNum 0)
  /\ board_of_card demo_store "c1" = Some "b1"
  /\ boards demo_store !! "b1" = Some (mkBoard "Sprint" "u1")
  /\ status (handle int32_ok any_date demo_labels (Some "u2")
               (MoveCard "c1" (JObj [("listId", JStr "l3"); ("order", JNum 0)]))
               demo_store).1 = 403
  /\ (handle int32_ok any_date demo_labels (Some "u2")
        (MoveCard "c1" (JObj [("listId", JStr "l3"); ("order", JNum 0)]))
        demo_store).2 = unchanged demo_store.
Proof.
  assert (Hu : authenticated (Some "u2") = Some "u2") by reflexivity.
  assert (Ha : move_args (JObj [("listId", JStr "l3"); ("order", JNum 0)])
               = Some (JStr "l3", JNum 0)) by (vm_compute; reflexivity).
  assert (Hs : board_of_card demo_store "c1" = Some "b1") by (vm_compute; reflexivity).
  assert (Hb : boards demo_store !! "b1" = Some (mkBoard "Sprint" "u1"))
    by (vm_compute; reflexivity).
  repeat (split; [assumption|]).
  destruct (moveCard_outcomes int32_ok any_date demo_labels _ _ _ _ _ _ _ _ _ Hu Ha Hs Hb)
    as (_ & _ & _ & Htarget).
  apply (Htarget ltac:(vm_compute; reflexivity) "b2" (mkBoard "Private" "u3"));
    vm_compute; reflexivity.
Defined.

Lemma created_order_is_next_witness :
  status (handle int32_ok any_date demo_labels (Some "u2")
            (CreateList "b1" (titled "Review") "l9") demo_store).1 = 201
  /\ (exists l,
        lists (now (handle int32_ok any_date demo_labels (Some "u2")
                      (CreateList "b1" (titled "Review") "l9") demo_store).2) !! "l9"
        = Some l
        /\ l_boardId l = "b1"
        /\ exists k l', lists demo_store !! k = Some l' /\ l_boardId l' = "b1"
                        /\ l_order l = l_order l' + 1)
  /\ status (handle int32_ok any_date demo_labels (Some "u2")
               (CreateCard "l1" (titled "Review") "c9") demo_store).1 = 201
  /\ (exists c,
        cards (now (handle int32_ok any_date demo_labels (Some "u2")
                      (CreateCard "l1" (titled "Review") "c9") demo_store).2) !! "c9"
        = Some c
        /\ c_listId c = "l1"
        /\ exists k c', cards demo_store !! k = Some c' /\ c_listId c' = "l1"
                        /\ c_order c = c_order c' + 1)
  /\ status (handle int32_ok any_date demo_labels (Some "u2")
               (CreateCard "l2" (titled "Review") "c9") demo_store).1 = 201
  /\ (exists c,
        cards (now (handle int32_ok any_date demo_labels (Some "u2")
                      (CreateCard "l2" (titled "Review") "c9") demo_store).2) !! "c9"
        = Some c
        /\ c_order c = 0).
Proof.
  destruct (created_order_is_next int32_ok any_date demo_labels (Some "u2") demo_store
              "l9" (titled "Review")) as (Hlist & _ & Hlist201 & _).
  destruct (created_order_is_next int32_ok any_date demo_labels (Some "u2") demo_store
              "c9" (titled "Review")) as (_ & Hcard & _ & Hcard201).
  assert (H201 : status (handle int32_ok any_date demo_labels (Some "u2")
                    (CreateList "b1" (titled "Review") "l9") demo_store).1 = 201).
  { apply (Hlist201 "u2" "b1" (mkBoard "Sprint" "u1") eq_refl);
      vm_compute; reflexivity. }
  assert (H201' : status (handle int32_ok any_date demo_labels (Some "u2")
                     (CreateCard "l1" (titled "Review") "c9") demo_store).1 = 201).
  { apply (Hcard201 "u2" "l1" "b1" (mkBoard "Sprint" "u1") eq_refl);
      vm_compute; reflexivity. }
  assert (H201'' : status (handle int32_ok any_date demo_labels (Some "u2")
                      (CreateCard "l2" (titled "Review") "c9") demo_store).1 = 201).
  { apply (Hcard201 "u2" "l2" "b1" (mkBoard "Sprint" "u1") eq_refl);
      vm_compute; reflexivity. }
  split; [exact H201|]. split; [|split; [exact H201'|split; [|split; [exact H201''|]]]].
  - destruct (Hlist "b1" H201) as (l & Hl & _ & Hbl & _ & _ & Hnext).
    exists l. split; [exact Hl|]. split; [exact Hbl|].
    apply Hnext. exists "l1", (mkList "Todo" 0 "b1").
    split; vm_compute; reflexivity.
  - destruct (Hcard "l1" H201') as (c & Hc & _ & Hcl & _ & _ & Hnext).
    exists c. split; [exact Hc|]. split; [exact Hcl|].
    apply Hnext. exists "c1", (mkCard "Fix bug" None [] None 0 "l1").
    split; vm_compute; reflexivity.
  - destruct (Hcard "l2" H201'') as (c & Hc & _ & _ & _ & Hzero & _).
    exists c. split; [exact Hc|].
    apply Hzero. intros k c' Hk. unfold demo_store in Hk. cbn [cards] in Hk.
    apply lookup_insert_Some in Hk as [[_ <-] | [_ Hk]]; [discriminate|].
    by rewrite lookup_empty in Hk.
Defined.

(** Against C8 without its amendment: board b9 does not exist, and
    [createList] with a blank title answers 400, not 404. *)
Lemma validation_precedes_lookup :
  boards demo_store !! "b9" = None
  /\ status (handle int32_ok any_date demo_labels (Some "u2")
               (CreateList "b9" (titled "") "l9") demo_store).1 = 400.
Proof.
  split; vm_compute; reflexivity.
Qed.

Lemma missing_target_not_found_witness :
  authenticated (Some "u3") = Some "u3"
  /\ target_missing demo_store (GetCard "c9") = true
  /\ status (handle int32_ok any_date demo_labels (Some "u3") (GetCard "c9") demo_store).1 = 404.
Proof.
  assert (Hu : authenticated (Some "u3") = Some "u3") by reflexivity.
  assert (Hm : target_missing demo_store (GetCard "c9") = true)
    by (vm_compute; reflexivity).
  split; [exact Hu|]. split; [exact Hm|].
  apply (missing_target_not_found int32_ok any_date demo_labels _ _ _ _ Hu Hm).
  reflexivity.
Defined.

Lemma reorderLists_frame_witness :
  status (handle int32_ok any_date demo_labels (Some "u2")
            (ReorderLists (JObj [("lists", JArr [entry "l2" 0; entry "l1" 1])]))
            demo_store).1 = 200
  /\ cards (now (handle int32_ok any_date demo_labels (Some "u2")
                   (ReorderLists (JObj [("lists", JArr [entry "l2" 0; entry "l1" 1])]))
                   demo_store).2) = cards demo_store.
Proof.
  assert (H200 : status (handle int32_ok any_date demo_labels (Some "u2")
            (ReorderLists (JObj [("lists", JArr [entry "l2" 0; entry "l1" 1])]))
            demo_store).1 = 200) by (vm_compute; reflexivity).
  split; [exact H200|].
  destruct (reorderLists_frame int32_ok any_date demo_labels _ _ _ H200)
    as (pairs & _ & _ & _ & Hcards & _).
  exact Hcards.
Defined.

Lemma updateCard_partial_witness :
  cards demo_store !! "c1" = Some (mkCard "Fix bug" None [] None 0 "l1")
  /\ now (handle int32_ok any_date demo_labels (Some "u2") (UpdateCard "c1" (JObj [])) demo_store).2
     = demo_store.
Proof.
  assert (Hc : cards demo_store !! "c1" = Some (mkCard "Fix bug" None [] None 0 "l1"))
    by (vm_compute; reflexivity).
  split; [exact Hc|].
  destruct (updateCard_partial int32_ok any_date demo_labels (Some "u2") _ _ (JObj []) _ Hc)
    as (c' & _ & _ & _ & _ & _ & _ & _ & _ & Hempty).
  apply Hempty; reflexivity.
Defined.

(** ** The further properties at work on the sample store *)

Lemma demo_store_integrity : integrity demo_store.
Proof.
  (split; [|split]); intros k x Hk;
    unfold demo_store in Hk; cbn [boards members lists cards] in Hk;
    repeat (apply lookup_insert_Some in Hk as [[<- <-] | [_ Hk]];
            [vm_compute; eexists; reflexivity|]);
    by rewrite lookup_empty in Hk.
Qed.

Lemma demo_store_titles : titles_trimmed demo_store.
Proof.
  (split; [|split]); intros k x Hk;
    unfold demo_store in Hk; cbn [boards members lists cards] in Hk;
    repeat (apply lookup_insert_Some in Hk as [[<- <-] | [_ Hk]];
            [split; [discriminate | vm_compute; reflexivity]|]);
    by rewrite lookup_empty in Hk.
Qed.

Lemma demo_store_outsider : no_access demo_store "u9".
Proof.
  intros k b Hk. unfold demo_store in Hk. cbn [boards] in Hk.
  repeat (apply lookup_insert_Some in Hk as [[<- <-] | [_ Hk]];
          [vm_compute; reflexivity|]).
  by rewrite lookup_empty in Hk.
Qed.

Lemma demo_users_unique : unique_emails demo_users.
Proof.
  intros k1 k2 u1 u2 H1 H2 _. unfold demo_users in H1, H2.
  apply lookup_insert_Some in H1 as [[<- _] | [_ H1]];
    [|by rewrite lookup_empty in H1].
  apply lookup_insert_Some in H2 as [[<- _] | [_ H2]];
    [done|by rewrite lookup_empty in H2].
Qed.

Lemma unauthenticated_refused_witness :
  authenticated None = None
  /\ (handle int32_ok any_date demo_labels None (DeleteBoard "b1") demo_store).2
     = unchanged demo_store.
Proof.
  split; [reflexivity|].
  exact (proj1 (unauthenticated_refused int32_ok any_date demo_labels None (DeleteBoard "b1")
                  demo_store eq_refl)).
Defined.

Lemma getAllBoards_accessible_witness :
  authenticated (Some "u2") = Some "u2"
  /\ exists bs,
      (handle int32_ok any_date demo_labels (Some "u2") GetAllBoards demo_store).1
      = {| status := 200; message := ""; payload := BoardsP bs |}
      /\ NoDup bs.*1.
Proof.
  split; [reflexivity|].
  destruct (getAllBoards_accessible int32_ok any_date demo_labels (Some "u2") "u2" demo_store
              eq_refl) as (bs & Hbs & Hnodup & _).
  exists bs. split; [exact Hbs | exact Hnodup].
Defined.

Lemma createBoard_grants_creator_witness :
  authenticated (Some "u3") = Some "u3"
  /\ status (handle int32_ok any_date demo_labels (Some "u3")
               (CreateBoard (titled (nbsp ++ " Plans " ++ emsp)) "b9" "m9")
               demo_store).1 = 201
  /\ boards (now (handle int32_ok any_date demo_labels (Some "u3")
                    (CreateBoard (titled (nbsp ++ " Plans " ++ emsp)) "b9" "m9")
                    demo_store).2) !! "b9" = Some (mkBoard "Plans" "u3")
  /\ status (handle int32_ok any_date demo_labels (Some "u3") (GetBoardById "b9")
               (now (handle int32_ok any_date demo_labels (Some "u3")
                       (CreateBoard (titled (nbsp ++ " Plans " ++ emsp)) "b9" "m9")
                       demo_store).2)).1
     = 200.
Proof.
  assert (H201 : status (handle int32_ok any_date demo_labels (Some "u3")
                           (CreateBoard (titled (nbsp ++ " Plans " ++ emsp)) "b9" "m9")
                           demo_store).1 = 201)
    by (vm_compute; reflexivity).
  split; [reflexivity|]. split; [exact H201|].
  destruct (createBoard_grants_creator int32_ok any_date demo_labels (Some "u3") "u3"
              (titled (nbsp ++ " Plans " ++ emsp)) "b9" "m9" demo_store eq_refl H201)
    as (t & Ht & _ & _ & Hnow & Hopen & _).
  split; [|exact Hopen].
  rewrite Hnow. cbn [boards]. rewrite lookup_insert_eq.
  vm_compute in Ht. injection Ht as <-. vm_compute. reflexivity.
Defined.

Lemma outsider_changes_nothing_witness :
  authenticated (Some "u9") = Some "u9"
  /\ no_access demo_store "u9"
  /\ (handle int32_ok any_date demo_labels (Some "u9") (DeleteBoard "b1") demo_store).2
     = unchanged demo_store.
Proof.
  split; [reflexivity|]. split; [exact demo_store_outsider|].
  exact (outsider_changes_nothing int32_ok any_date demo_labels (Some "u9") "u9"
           (DeleteBoard "b1") demo_store eq_refl demo_store_outsider eq_refl).
Defined.

Lemma handlers_keep_integrity_witness :
  integrity demo_store
  /\ integrity (now (handle int32_ok any_date demo_labels (Some "u1") (DeleteBoard "b1")
                       demo_store).2).
Proof.
  split; [exact demo_store_integrity|].
  exact (handlers_keep_integrity int32_ok any_date demo_labels (Some "u1") (DeleteBoard "b1")
           demo_store demo_store_integrity).
Defined.

Lemma handlers_keep_titles_trimmed_witness :
  titles_trimmed demo_store
  /\ titles_trimmed (now (handle int32_ok any_date demo_labels (Some "u1")
                            (UpdateBoard "b1" (titled (emsp ++ "Roadmap" ++ nbsp)))
                            demo_store).2)
  /\ boards (now (handle int32_ok any_date demo_labels (Some "u1")
                    (UpdateBoard "b1" (titled (emsp ++ "Roadmap" ++ nbsp)))
                    demo_store).2) !! "b1" = Some (mkBoard "Roadmap" "u1")
  /\ status (handle int32_ok any_date demo_labels (Some "u1")
               (CreateBoard (titled nbsp) "b9" "m9") demo_store).1 = 400.
Proof.
  split; [exact demo_store_titles|]. split; [|split; vm_compute; reflexivity].
  exact (handlers_keep_titles_trimmed int32_ok any_date demo_labels (Some "u1")
           (UpdateBoard "b1" (titled (emsp ++ "Roadmap" ++ nbsp))) demo_store
           demo_store_titles).
Defined.

Lemma board_isolated_witness :
  authenticated (Some "u2") = Some "u2"
  /\ boards demo_store !! "b2" = Some (mkBoard "Private" "u3")
  /\ hasAccess (mkBoard "Private" "u3", members_of demo_store "b2") "u2" = false
  /\ boards (now (handle int32_ok any_date demo_labels (Some "u2") (DeleteList "l3")
                    demo_store).2) !! "b2"
     = Some (mkBoard "Private" "u3").
Proof.
  assert (Hb : boards demo_store !! "b2" = Some (mkBoard "Private" "u3"))
    by (vm_compute; reflexivity).
  assert (Ha : hasAccess (mkBoard "Private" "u3", members_of demo_store "b2") "u2"
               = false) by (vm_compute; reflexivity).
  split; [reflexivity|]. split; [exact Hb|]. split; [exact Ha|].
  exact (proj1 (board_isolated int32_ok any_date demo_labels (Some "u2") "u2" (DeleteList "l3")
                  demo_store "b2" _ eq_refl Hb Ha eq_refl)).
Defined.

Lemma consecutive_creations_witness :
  status (handle int32_ok any_date demo_labels (Some "u1") (CreateList "b1" (titled "Review") "l8")
            demo_store).1 = 201
  /\ (exists l1 l2,
        lists (now (handle int32_ok any_date demo_labels (Some "u2")
                      (CreateList "b1" (titled "Done") "l9")
                      (now (handle int32_ok any_date demo_labels (Some "u1")
                              (CreateList "b1" (titled "Review") "l8")
                              demo_store).2)).2) !! "l8" = Some l1
        /\ lists (now (handle int32_ok any_date demo_labels (Some "u2")
                         (CreateList "b1" (titled "Done") "l9")
                         (now (handle int32_ok any_date demo_labels (Some "u1")
                                 (CreateList "b1" (titled "Review") "l8")
                                 demo_store).2)).2) !! "l9" = Some l2
        /\ l_order l2 = l_order l1 + 1)
  /\ status (handle int32_ok any_date demo_labels (Some "u1") (CreateCard "l1" (titled "Review") "c8")
               demo_store).1 = 201
  /\ (exists c1 c2,
        cards (now (handle int32_ok any_date demo_labels (Some "u2")
                      (CreateCard "l1" (titled "Done") "c9")
                      (now (handle int32_ok any_date demo_labels (Some "u1")
                              (CreateCard "l1" (titled "Review") "c8")
                              demo_store).2)).2) !! "c8" = Some c1
        /\ cards (now (handle int32_ok any_date demo_labels (Some "u2")
                         (CreateCard "l1" (titled "Done") "c9")
                         (now (handle int32_ok any_date demo_labels (Some "u1")
                                 (CreateCard "l1" (titled "Review") "c8")
                                 demo_store).2)).2) !! "c9" = Some c2
        /\ c_order c2 = c_order c1 + 1).
Proof.
  assert (H1 : status (handle int32_ok any_date demo_labels (Some "u1")
                         (CreateList "b1" (titled "Review") "l8") demo_store).1 = 201)
    by (vm_compute; reflexivity).
  assert (H1' : status (handle int32_ok any_date demo_labels (Some "u1")
                          (CreateCard "l1" (titled "Review") "c8") demo_store).1 = 201)
    by (vm_compute; reflexivity).
  destruct (consecutive_creations int32_ok any_date demo_labels (Some "u1") (Some "u2")
              (titled "Review") (titled "Done") "l8" "l9" demo_store)
    as (Hlists & _ & Hsecond & _).
  destruct (consecutive_creations int32_ok any_date demo_labels (Some "u1") (Some "u2")
              (titled "Review") (titled "Done") "c8" "c9" demo_store)
    as (_ & Hcards & _ & Hsecond').
  split; [exact H1|]. split; [|split; [exact H1'|]].
  - apply (Hlists "b1" H1).
    apply (Hsecond "b1" "u2" (mkBoard "Sprint" "u1") H1);
      first [vm_compute; reflexivity | discriminate].
  - apply (Hcards "l1" H1').
    apply (Hsecond' "l1" "u2" "b1" (mkBoard "Sprint" "u1") H1');
      first [vm_compute; reflexivity | discriminate].
Defined.

Lemma moveCard_undo_witness :
  cards demo_store !! "c1" = Some (mkCard "Fix bug" None [] None 0 "l1")
  /\ status (handle int32_ok any_date demo_labels (Some "u2") (MoveCard "c1" (move_body "l2" 3))
               demo_store).1 = 200
  /\ now (handle int32_ok any_date demo_labels (Some "u2") (MoveCard "c1" (move_body "l1" 0))
            (now (handle int32_ok any_date demo_labels (Some "u2")
                    (MoveCard "c1" (move_body "l2" 3)) demo_store).2)).2
     = demo_store.
Proof.
  assert (Hc : cards demo_store !! "c1" = Some (mkCard "Fix bug" None [] None 0 "l1"))
    by (vm_compute; reflexivity).
  assert (H200 : status (handle int32_ok any_date demo_labels (Some "u2")
                           (MoveCard "c1" (move_body "l2" 3)) demo_store).1 = 200)
    by (vm_compute; reflexivity).
  split; [exact Hc|]. split; [exact H200|].
  refine (proj2 (moveCard_undo int32_ok any_date demo_labels (Some "u2") "c1" "l2" 3 _
                   demo_store Hc _ eq_refl H200)).
  discriminate.
Defined.

Lemma reorderLists_idempotent_witness :
  status (handle int32_ok any_date demo_labels (Some "u2")
            (ReorderLists (JObj [("lists", JArr [entry "l1" 1; entry "l2" 0])]))
            demo_store).1 = 200
  /\ now (handle int32_ok any_date demo_labels (Some "u2")
            (ReorderLists (JObj [("lists", JArr [entry "l1" 1; entry "l2" 0])]))
            (now (handle int32_ok any_date demo_labels (Some "u2")
                    (ReorderLists (JObj [("lists", JArr [entry "l1" 1; entry "l2" 0])]))
                    demo_store).2)).2
     = now (handle int32_ok any_date demo_labels (Some "u2")
              (ReorderLists (JObj [("lists", JArr [entry "l1" 1; entry "l2" 0])]))
              demo_store).2.
Proof.
  assert (H200 : status (handle int32_ok any_date demo_labels (Some "u2")
                           (ReorderLists
                              (JObj [("lists", JArr [entry "l1" 1; entry "l2" 0])]))
                           demo_store).1 = 200)
    by (vm_compute; reflexivity).
  split; [exact H200|].
  exact (proj2 (reorderLists_idempotent int32_ok any_date demo_labels (Some "u2") _ demo_store
                  H200)).
Defined.

Lemma updateList_renames_only_witness :
  status (handle int32_ok any_date demo_labels (Some "u2")
            (UpdateList "l1" (titled (" Next" ++ nbsp))) demo_store).1 = 200
  /\ now (handle int32_ok any_date demo_labels (Some "u2")
            (UpdateList "l1" (titled (" Next" ++ nbsp))) demo_store).2
     = set_lists <["l1" := mkList "Next" 0 "b1"]> demo_store.
Proof.
  assert (H200 : status (handle int32_ok any_date demo_labels (Some "u2")
                           (UpdateList "l1" (titled (" Next" ++ nbsp)))
                           demo_store).1 = 200)
    by (vm_compute; reflexivity).
  split; [exact H200|].
  destruct (updateList_renames_only int32_ok any_date demo_labels (Some "u2") "l1"
              (titled (" Next" ++ nbsp)) demo_store H200)
    as (l & t & Hl & Ht & Hnow & _).
  rewrite Hnow.
  vm_compute in Hl. injection Hl as <-.
  vm_compute in Ht. injection Ht as <-.
  f_equal.
Defined.

Lemma deleted_is_gone_witness :
  authenticated (Some "u2") = Some "u2"
  /\ status (handle int32_ok any_date demo_labels (Some "u1") (DeleteBoard "b1") demo_store).1 = 200
  /\ status (handle int32_ok any_date demo_labels (Some "u2") (GetCard "c1")
               (now (handle int32_ok any_date demo_labels (Some "u1") (DeleteBoard "b1")
                       demo_store).2)).1 = 404
  /\ status (handle int32_ok any_date demo_labels (Some "u1") (DeleteList "l1") demo_store).1 = 200
  /\ status (handle int32_ok any_date demo_labels (Some "u2") (GetCard "c1")
               (now (handle int32_ok any_date demo_labels (Some "u1") (DeleteList "l1")
                       demo_store).2)).1 = 404
  /\ status (handle int32_ok any_date demo_labels (Some "u1") (DeleteCard "c1") demo_store).1 = 200
  /\ status (handle int32_ok any_date demo_labels (Some "u2") (GetCard "c1")
               (now (handle int32_ok any_date demo_labels (Some "u1") (DeleteCard "c1")
                       demo_store).2)).1 = 404.
Proof.
  assert (H200 : status (handle int32_ok any_date demo_labels (Some "u1") (DeleteBoard "b1")
                           demo_store).1 = 200) by (vm_compute; reflexivity).
  assert (H200l : status (handle int32_ok any_date demo_labels (Some "u1") (DeleteList "l1")
                            demo_store).1 = 200) by (vm_compute; reflexivity).
  assert (H200c : status (handle int32_ok any_date demo_labels (Some "u1") (DeleteCard "c1")
                            demo_store).1 = 200) by (vm_compute; reflexivity).
  destruct (deleted_is_gone int32_ok any_date demo_labels (Some "u1") (Some "u2") "u2" demo_store
              eq_refl) as (Hcard & Hlist & Hboard).
  split; [reflexivity|]. split; [exact H200|]. split.
  { refine (proj2 (proj2 (Hboard "b1" H200))
              "c1" (mkCard "Fix bug" None [] None 0 "l1") (mkList "Todo" 0 "b1") _ _ _);
      vm_compute; reflexivity. }
  split; [exact H200l|]. split.
  { refine (proj2 (Hlist "l1" H200l) "c1" (mkCard "Fix bug" None [] None 0 "l1") _ _);
      vm_compute; reflexivity. }
  split; [exact H200c|]. exact (Hcard "c1" H200c).
Defined.

Lemma authenticateToken_reads_second_word_witness :
  spaceless "Token" = true
  /\ spaceless "u1.ann@example.org" = true
  /\ authenticateToken (jwt := demo_jwt) (Some "Token u1.ann@example.org")
     = Next (mkPayload "u1" "ann@example.org")
  /\ authenticateToken (jwt := demo_jwt) (Some "Token u1.ann@example.org x.y z")
     = Next (mkPayload "u1" "ann@example.org")
  /\ authenticateToken (jwt := demo_jwt) (Some "Token  u1.ann@example.org")
     = Refused {| status := 401; message := "Access denied. No token provided.";
                  payload := NoPayload |}.
Proof.
  destruct (authenticateToken_reads_second_word (jwt := demo_jwt))
    as (_ & _ & Hsecond & Hrest).
  split; [reflexivity|]. split; [reflexivity|]. split; [|split].
  - exact (Hsecond "Token" "u1.ann@example.org" eq_refl eq_refl).
  - etrans; [exact (Hrest "Token" "u1.ann@example.org" "x.y z" eq_refl eq_refl)|].
    exact (Hsecond "Token" "u1.ann@example.org" eq_refl eq_refl).
  - etrans; [exact (Hrest "Token" "" "u1.ann@example.org" eq_refl eq_refl)|].
    exact (Hsecond "Token" "" eq_refl eq_refl).
Defined.

Lemma reorderLists_shadowed_witness :
  dispatch (js := demo_runtime) listRoutes
    (mkHttp PUT ["Lists"; "reorder"; ""] None
       (JObj [("lists", JArr [entry "l1" 1; entry "l2" 0])]) "" "")
  = Handler (UpdateList "reorder" (JObj [("lists", JArr [entry "l1" 1; entry "l2" 0])])).
Proof.
  exact (proj2 (reorderLists_shadowed (js := demo_runtime)
                  (mkHttp PUT ["Lists"; "reorder"; ""] None
                     (JObj [("lists", JArr [entry "l1" 1; entry "l2" 0])]) "" ""))
           "Lists" "reorder" eq_refl eq_refl eq_refl eq_refl).
Defined.

Lemma reorder_endpoint_answers_400_witness :
  authenticateToken (jwt := demo_jwt) (Some "Bearer u1.ann@example.org")
  = Next (mkPayload "u1" "ann@example.org")
  /\ exists r,
      router (jwt := demo_jwt) (js := demo_runtime) int32_ok any_date demo_labels listRoutes
        (mkHttp PUT ["lists"; "reorder"] (Some "Bearer u1.ann@example.org")
           (JObj [("lists", JArr [entry "l1" 1; entry "l2" 0])]) "" "")
        demo_store
      = Some (r, unchanged demo_store)
      /\ status r = 400.
Proof.
  split; [reflexivity|].
  refine (reorder_endpoint_answers_400 (jwt := demo_jwt) (js := demo_runtime)
            int32_ok any_date demo_labels
            (mkHttp PUT ["lists"; "reorder"] (Some "Bearer u1.ann@example.org")
               (JObj [("lists", JArr [entry "l1" 1; entry "l2" 0])]) "" "")
            (mkPayload "u1" "ann@example.org") "lists" "reorder" demo_store
            eq_refl _ eq_refl eq_refl eq_refl eq_refl eq_refl).
  discriminate.
Defined.

Lemma routes_not_shadowed_witness :
  cardRoutes !! 4%nat
  = Some (PUT, [Lit "cards"; Par; Lit "move"],
          WithParam (fun id q => MoveCard id (h_body q)))
  /\ Some (Handler (MoveCard "c1" (move_body "l2" 3)))
     = Some (dispatch (js := demo_runtime) cardRoutes
               (mkHttp PUT ["cards"; "c1"; "move"] None (move_body "l2" 3) "" "")).
Proof.
  split; [reflexivity|].
  exact (routes_not_shadowed (js := demo_runtime) cardRoutes 4 PUT
           [Lit "cards"; Par; Lit "move"]
           (WithParam (fun id q => MoveCard id (h_body q))) ["c1"]
           (mkHttp PUT ["cards"; "c1"; "move"] None (move_body "l2" 3) "" "")
           (or_intror eq_refl) eq_refl eq_refl eq_refl).
Defined.

Lemma register_keeps_emails_unique_witness :
  unique_emails demo_users
  /\ unique_emails
       (register (jwt := demo_jwt) (bcrypt := demo_bcrypt)
          (JObj [("email", JStr "bob@example.org"); ("password", JStr "pw");
                 ("name", JStr "Bob")]) "u2" "na" demo_users).2.
Proof.
  split; [exact demo_users_unique|].
  exact (proj1 (register_keeps_emails_unique (jwt := demo_jwt) (bcrypt := demo_bcrypt)
                  _ "u2" "na" demo_users demo_users_unique)).
Defined.

Lemma login_failures_alike_witness :
  a_status (login (jwt := demo_jwt) (bcrypt := demo_bcrypt)
              (credentials "ann@example.org" "guess") demo_users) = 401
  /\ login (jwt := demo_jwt) (bcrypt := demo_bcrypt)
       (credentials "ann@example.org" "guess") demo_users
     = login (jwt := demo_jwt) (bcrypt := demo_bcrypt)
         (credentials "zoe@example.org" "guess") demo_users.
Proof.
  assert (H1 : a_status (login (jwt := demo_jwt) (bcrypt := demo_bcrypt)
                           (credentials "ann@example.org" "guess") demo_users) = 401)
    by (vm_compute; reflexivity).
  assert (H2 : a_status (login (jwt := demo_jwt) (bcrypt := demo_bcrypt)
                           (credentials "zoe@example.org" "guess") demo_users) = 401)
    by (vm_compute; reflexivity).
  split; [exact H1|].
  rewrite (login_failures_alike (jwt := demo_jwt) (bcrypt := demo_bcrypt) _ _ H1).
  rewrite (login_failures_alike (jwt := demo_jwt) (bcrypt := demo_bcrypt) _ _ H2).
  reflexivity.
Defined.

Lemma login_checks_password_witness :
  a_status (login (jwt := demo_jwt) (bcrypt := demo_bcrypt)
              (credentials "ann@example.org" "secret") demo_users) = 200
  /\ exists id user,
      demo_users !! id = Some user
      /\ bcrypt_compare (Bcrypt := demo_bcrypt) "secret" (u_password user) = true.
Proof.
  assert (H200 : a_status (login (jwt := demo_jwt) (bcrypt := demo_bcrypt)
                             (credentials "ann@example.org" "secret") demo_users)
                 = 200) by (vm_compute; reflexivity).
  split; [exact H200|].
  destruct (login_checks_password (jwt := demo_jwt) (bcrypt := demo_bcrypt) _ _ H200)
    as (email & password & id & user & _ & Hp & Hk & _ & Hcmp & _).
  exists id, user. split; [exact Hk|].
  injection Hp as <-. exact Hcmp.
Defined.

Lemma register_then_login_witness :
  unique_emails demo_users
  /\ a_status (register (jwt := demo_jwt) (bcrypt := demo_bcrypt)
                 (JObj [("email", JStr "bob@example.org"); ("password", JStr "pw");
                        ("name", JStr "Bob")]) "u2" "na" demo_users).1 = 201
  /\ login (jwt := demo_jwt) (bcrypt := demo_bcrypt)
       (credentials "bob@example.org" "pw")
       (register (jwt := demo_jwt) (bcrypt := demo_bcrypt)
          (JObj [("email", JStr "bob@example.org"); ("password", JStr "pw");
                 ("name", JStr "Bob")]) "u2" "na" demo_users).2
     = {| a_status := 200; a_message := "Login successful";
          a_token := Some "u2.bob@example.org";
          a_user := Some ("u2", "bob@example.org", "Bob") |}.
Proof.
  assert (H201 : a_status (register (jwt := demo_jwt) (bcrypt := demo_bcrypt)
                             (JObj [("email", JStr "bob@example.org");
                                    ("password", JStr "pw"); ("name", JStr "Bob")])
                             "u2" "na" demo_users).1 = 201)
    by (vm_compute; reflexivity).
  split; [exact demo_users_unique|]. split; [exact H201|].
  refine (register_then_login (jwt := demo_jwt) (bcrypt := demo_bcrypt) _ "u2" "na"
            demo_users "bob@example.org" "pw" "Bob" demo_users_unique
            _ eq_refl H201).
  repeat split.
Defined.

Lemma login_token_authenticates_witness :
  login (jwt := demo_jwt) (bcrypt := demo_bcrypt)
    (credentials "ann@example.org" "secret") demo_users
  = {| a_status := 200; a_message := "Login successful";
       a_token := Some "u1.ann@example.org";
       a_user := Some ("u1", "ann@example.org", "Ann") |}
  /\ authenticateToken (jwt := demo_jwt) (Some "Bearer u1.ann@example.org")
     = Next (mkPayload "u1" "ann@example.org")
  /\ getProfile (Some "u1") demo_users
     = {| a_status := 200; a_message := ""; a_token := None;
          a_user := Some ("u1", "ann@example.org", "Ann") |}.
Proof.
  assert (Hlogin : login (jwt := demo_jwt) (bcrypt := demo_bcrypt)
                     (credentials "ann@example.org" "secret") demo_users
                   = {| a_status := 200; a_message := "Login successful";
                        a_token := Some "u1.ann@example.org";
                        a_user := Some ("u1", "ann@example.org", "Ann") |})
    by (vm_compute; reflexivity).
  split; [exact Hlogin|].
  refine (login_token_authenticates (jwt := demo_jwt) (bcrypt := demo_bcrypt) _
            demo_users "u1.ann@example.org" "u1" "ann@example.org" "Ann"
            Hlogin eq_refl eq_refl _ _); discriminate.
Defined.
